(** * GoalsSequencer: the goal-file parser and the goal sequencer

    A shallow embedding of [ros/ardros/nodes/GoalsSequencer.py].

    The node is Python 2 code of the rosbuild era ([roslib.load_manifest]),
    so [str] is a byte string: it is modelled by [string], a list of 8-bit
    characters, and the built-ins [str.strip], [str.startswith],
    [str.split], [len], list indexing and [float] follow Python 2.7 on byte
    strings.  Exceptions are values of [exn], carried by the [result]
    monad. *)

From Stdlib Require Import String Ascii List Bool Arith NArith ZArith Lia.
From Stdlib Require Import Reals Lra.
Import ListNotations.

Local Open Scope string_scope.
Local Open Scope list_scope.

(** ** Exceptions and the error monad *)

Inductive exn : Type :=
| IOError (path : string)        (* open() on a path that cannot be opened *)
| NameError (msg : string)       (* raised by _ExtractValue, with its message *)
| ValueError (arg : string)      (* raised by float(), with its argument *)
| IndexError.                    (* list index out of range *)

Inductive result (A : Type) : Type :=
| Ok (a : A)
| Raise (e : exn).

Arguments Ok {A} a.
Arguments Raise {A} e.

Definition bind {A B : Type} (r : result A) (k : A -> result B) : result B :=
  match r with
  | Ok a => k a
  | Raise e => Raise e
  end.

Notation "x <- r ;; k" := (bind r (fun x => k))
  (at level 61, r at next level, right associativity).

Definition is_ok {A : Type} (r : result A) : bool :=
  match r with Ok _ => true | Raise _ => false end.

(** ** Python 2.7 built-ins on byte strings *)

Module Py.

(** [c.isspace()] in the C locale: space, \t, \n, \v, \f, \r. *)
Definition isspace (c : ascii) : bool :=
  let n := nat_of_ascii c in
  ((n =? 32) || ((9 <=? n) && (n <=? 13)))%nat.

Fixpoint lstrip (s : string) : string :=
  match s with
  | String c r => if isspace c then lstrip r else s
  | EmptyString => EmptyString
  end.

Fixpoint rstrip (s : string) : string :=
  match s with
  | String c r =>
      match rstrip r with
      | EmptyString => if isspace c then EmptyString else String c EmptyString
      | r' => String c r'
      end
  | EmptyString => EmptyString
  end.

(** [s.strip()] *)
Definition strip (s : string) : string := rstrip (lstrip s).

(** [s.startswith(p)] *)
Definition startswith (s p : string) : bool := String.prefix p s.

(** [s.split(sep)] for a one-character separator; both call sites of the
    node pass one (',' and '=').  The result is never empty:
    [''.split(',') == ['']]. *)
Fixpoint split (sep : ascii) (s : string) : list string :=
  match s with
  | EmptyString => [EmptyString]
  | String c r =>
      if Ascii.eqb c sep then EmptyString :: split sep r
      else match split sep r with
           | h :: t => String c h :: t
           | [] => [String c EmptyString]
           end
  end.

(** [l[i]] for a non-negative constant index. *)
Definition getitem {A : Type} (l : list A) (i : nat) : result A :=
  match nth_error l i with
  | Some a => Ok a
  | None => Raise IndexError
  end.

(** Iteration over a file opened in mode 'r': the lines of the content,
    each with its terminating newline, the last one possibly without. *)
Fixpoint readlines (content : string) : list string :=
  match content with
  | EmptyString => []
  | String c r =>
      if Ascii.eqb c "010"%char then String c EmptyString :: readlines r
      else match readlines r with
           | h :: t => String c h :: t
           | [] => [String c EmptyString]
           end
  end.

(** *** [float(s)]

    A Python float is a binary64 number.  The rounding of a decimal literal
    to binary64 is not modelled: a finite literal is kept as the decimal it
    denotes, [(-1)^neg * m * 10^e]. *)
Inductive pyfloat : Type :=
| PyFinite (neg : bool) (m : N) (e : Z)
| PyInf (neg : bool)
| PyNaN.

Definition isdigit (c : ascii) : bool :=
  let n := nat_of_ascii c in ((48 <=? n) && (n <=? 57))%nat.

Definition digit_value (c : ascii) : N := N.of_nat (nat_of_ascii c - 48).

(** Reads the longest run of decimal digits at the head of [s], continuing
    the number [acc]; returns the number, how many digits were read, and
    the rest of the string. *)
Fixpoint digits (s : string) (acc : N) (cnt : nat) : N * nat * string :=
  match s with
  | String c r =>
      if isdigit c then digits r (10 * acc + digit_value c)%N (S cnt)
      else (acc, cnt, s)
  | EmptyString => (acc, cnt, s)
  end.

Definition sign (s : string) : bool * string :=
  match s with
  | String "-" r => (true, r)
  | String "+" r => (false, r)
  | _ => (false, s)
  end.

Definition tolower (c : ascii) : ascii :=
  let n := nat_of_ascii c in
  if ((65 <=? n) && (n <=? 90))%nat then ascii_of_nat (n + 32) else c.

Fixpoint lower (s : string) : string :=
  match s with
  | String c r => String (tolower c) (lower r)
  | EmptyString => EmptyString
  end.

(** digits [. digits] | . digits, then an optional exponent; the whole
    string must be consumed. *)
Definition parse_decimal (s : string) : option (N * Z) :=
  let '(ip, ni, r1) := digits s 0%N 0 in
  let '(m, nf, r2) :=
    match r1 with
    | String "." r => digits r ip 0
    | _ => (ip, 0, r1)
    end in
  if (ni + nf =? 0)%nat then None
  else
    match r2 with
    | EmptyString => Some (m, (- Z.of_nat nf)%Z)
    | String c r3 =>
        if Ascii.eqb (tolower c) "e" then
          let '(eneg, r4) := sign r3 in
          let '(ev, ne, r5) := digits r4 0%N 0 in
          if (ne =? 0)%nat then None
          else match r5 with
               | EmptyString =>
                   Some (m, ((if eneg then - Z.of_N ev else Z.of_N ev)
                             - Z.of_nat nf)%Z)
               | _ => None
               end
        else None
    end.

Definition parse_inf_or_nan (s : string) : option (bool -> pyfloat) :=
  let l := lower s in
  if (l =? "inf") || (l =? "infinity") then Some PyInf
  else if l =? "nan" then Some (fun _ => PyNaN)
  else None.

Definition float (s : string) : result pyfloat :=
  let t := strip s in
  let '(neg, body) := sign t in
  match parse_decimal body with
  | Some (m, e) => Ok (PyFinite neg m e)
  | None =>
      match parse_inf_or_nan body with
      | Some f => Ok (f neg)
      | None => Raise (ValueError s)
      end
  end.

End Py.

Import Py.

(** ** GoalsFileParser *)

(** A goal is the tuple [(x, y, theta)]. *)
Definition goal (F : Type) : Type := (F * F * F)%type.

(** The parser object: [Parse] stores the path it was given. *)
Record GoalsFileParser : Type := { _GoalsFilePath : option string }.

(** The file system as [open] sees it: the content of each path that can be
    opened for reading. *)
Definition filesystem : Type := string -> option string.

Definition _ExtractValue (variableName linePart : string) : result pyfloat :=
  let nameValueParts := split "=" linePart in
  name <- getitem nameValueParts 0 ;;
  if negb (strip name =? variableName) then
    Raise (NameError ("Expected variable name " ++ variableName
                      ++ " but found " ++ strip name))
  else
    value <- getitem nameValueParts 1 ;;
    float (strip value).

(** [None] is Python's [None], returned for comment and empty lines. *)
Definition _ParseLine (line : string) : result (option (goal pyfloat)) :=
  let trimmedLine := strip line in
  if startswith trimmedLine "//" then Ok None
  else if (String.length trimmedLine =? 0)%nat then Ok None
  else
    let lineParts := split "," trimmedLine in
    p0 <- getitem lineParts 0 ;;
    x <- _ExtractValue "x" p0 ;;
    p1 <- getitem lineParts 1 ;;
    y <- _ExtractValue "y" p1 ;;
    p2 <- getitem lineParts 2 ;;
    theta <- _ExtractValue "theta" p2 ;;
    Ok (Some (x, y, theta)).

(** The loop of [Parse]: [goals] is the list built so far. *)
Fixpoint Parse_loop (lines : list string) (goals : list (goal pyfloat))
  : result (list (goal pyfloat)) :=
  match lines with
  | [] => Ok goals
  | line :: rest =>
      g <- _ParseLine line ;;
      match g with
      | Some goal => Parse_loop rest (goals ++ [goal])
      | None => Parse_loop rest goals
      end
  end.

Definition Parse (self : GoalsFileParser) (fs : filesystem) (filePath : string)
  : GoalsFileParser * result (list (goal pyfloat)) :=
  let self := {| _GoalsFilePath := Some filePath |} in
  match fs filePath with
  | None => (self, Raise (IOError filePath))
  | Some content => (self, Parse_loop (readlines content) [])
  end.

(** ** External collaborators of the sequencer *)

(** [actionlib_msgs/GoalStatus]: the states an action client reports. *)
Inductive GoalStatus : Type :=
| PENDING | ACTIVE | PREEMPTED | SUCCEEDED | ABORTED
| REJECTED | PREEMPTING | RECALLING | RECALLED | LOST.

Definition GoalStatus_eqb (a b : GoalStatus) : bool :=
  match a, b with
  | PENDING, PENDING | ACTIVE, ACTIVE | PREEMPTED, PREEMPTED
  | SUCCEEDED, SUCCEEDED | ABORTED, ABORTED | REJECTED, REJECTED
  | PREEMPTING, PREEMPTING | RECALLING, RECALLING | RECALLED, RECALLED
  | LOST, LOST => true
  | _, _ => false
  end.

(** [rospy.Time] *)
Record Time : Type := { secs : Z; nsecs : Z }.

(** A numpy array of shape (4,), as [quaternion_about_axis] returns. *)
Definition ndarray4 (F : Type) : Type := (F * F * F * F)%type.

Definition item0 {F} (a : ndarray4 F) : F := let '(a0, _, _, _) := a in a0.
Definition item1 {F} (a : ndarray4 F) : F := let '(_, a1, _, _) := a in a1.
Definition item2 {F} (a : ndarray4 F) : F := let '(_, _, a2, _) := a in a2.
Definition item3 {F} (a : ndarray4 F) : F := let '(_, _, _, a3) := a in a3.

(** What the sequencer needs of the number type [F] of its goals: the
    conversion of a Python int, and [tf.transformations]. *)
Class FloatLib (F : Type) : Type := {
  of_int : Z -> F;
  quaternion_about_axis : F -> F * F * F -> ndarray4 F
}.

(** The messages ([geometry_msgs], [std_msgs], [move_base_msgs]). *)
Record Quaternion (F : Type) : Type :=
  { quat_x : F; quat_y : F; quat_z : F; quat_w : F }.
Record Point (F : Type) : Type :=
  { point_x : F; point_y : F; point_z : F }.
Record Pose (F : Type) : Type :=
  { position : Point F; orientation : Quaternion F }.
Record Header : Type :=
  { seq : Z; stamp : Time; frame_id : string }.
Record PoseStamped (F : Type) : Type :=
  { header : Header; pose : Pose F }.
Record MoveBaseGoal (F : Type) : Type :=
  { target_pose : PoseStamped F }.

Arguments quat_x {F} _.
Arguments quat_y {F} _.
Arguments quat_z {F} _.
Arguments quat_w {F} _.
Arguments point_x {F} _.
Arguments point_y {F} _.
Arguments point_z {F} _.
Arguments position {F} _.
Arguments orientation {F} _.
Arguments header {F} _.
Arguments pose {F} _.
Arguments target_pose {F} _.

(** What is written to standard output by [print]. *)
Inductive Printed (F : Type) : Type :=
| PNavigating (g : goal F)           (* "Navigating to goal " + str(goal) *)
| PMoveBaseGoal (m : MoveBaseGoal F) (* print(moveBaseGoal) *)
| PGoals (gs : list (goal F)).       (* print(goals) *)

Arguments PNavigating {F} g.
Arguments PMoveBaseGoal {F} m.
Arguments PGoals {F} gs.

(** The calls the node makes on the outside world, in the order made. *)
Inductive Event (F : Type) : Type :=
| Print (p : Printed F)
| InitNode (name : string)             (* rospy.init_node *)
| NewClient (ns : string)              (* actionlib.SimpleActionClient *)
| WaitForServer                        (* _Client.wait_for_server() *)
| SendGoal (m : MoveBaseGoal F)        (* _Client.send_goal *)
| WaitForResult                        (* _Client.wait_for_result() *)
| LogInfo (msg : string)               (* rospy.loginfo *)
| LogErr (msg : string).               (* rospy.logerr *)

Arguments Print {F} p.
Arguments InitNode {F} name.
Arguments NewClient {F} ns.
Arguments WaitForServer {F}.
Arguments SendGoal {F} m.
Arguments WaitForResult {F}.
Arguments LogInfo {F} msg.
Arguments LogErr {F} msg.

(** The outside world.  [clock k] is what the [k]-th call of
    [rospy.Time.now()] returns; [server h] is the terminal status that
    [get_state()] reports once [wait_for_result()] has returned, [h] being
    the goals sent so far, the outstanding one last.  [wait_for_result()]
    is called without a timeout: the model covers the runs in which the
    service answers every goal. *)
Record Env (F : Type) : Type := {
  clock : nat -> Time;
  server : list (MoveBaseGoal F) -> GoalStatus
}.

Arguments clock {F} _ _.
Arguments server {F} _ _.

Record World (F : Type) : Type := {
  now_calls : nat;                     (* calls of rospy.Time.now() so far *)
  sent : list (MoveBaseGoal F);        (* goals sent so far *)
  trace : list (Event F)               (* events so far, oldest first *)
}.

Arguments now_calls {F} _.
Arguments sent {F} _.
Arguments trace {F} _.

(** Computations on the world. *)
Definition IO (F A : Type) : Type := Env F -> World F -> A * World F.

Definition ret {F A} (a : A) : IO F A := fun _ w => (a, w).

Definition iobind {F A B} (c : IO F A) (k : A -> IO F B) : IO F B :=
  fun env w => let '(a, w1) := c env w in k a env w1.

Notation "x <~ c ;; k" := (iobind c (fun x => k))
  (at level 61, c at next level, right associativity).
Notation "c ;~ k" := (iobind c (fun _ => k))
  (at level 61, right associativity).

Definition emit {F} (e : Event F) : IO F unit :=
  fun _ w => (tt, {| now_calls := now_calls w; sent := sent w;
                     trace := trace w ++ [e] |}).

Definition print {F} (p : Printed F) : IO F unit := emit (Print p).
Definition loginfo {F} (msg : string) : IO F unit := emit (LogInfo msg).
Definition logerr {F} (msg : string) : IO F unit := emit (LogErr msg).

Definition Time_now {F} : IO F Time :=
  fun env w => (clock env (now_calls w),
                {| now_calls := S (now_calls w); sent := sent w;
                   trace := trace w |}).

Definition send_goal {F} (m : MoveBaseGoal F) : IO F unit :=
  fun _ w => (tt, {| now_calls := now_calls w; sent := sent w ++ [m];
                     trace := trace w ++ [SendGoal m] |}).

Definition wait_for_result {F} : IO F unit := emit WaitForResult.

Definition get_state {F} : IO F GoalStatus :=
  fun env w => (server env (sent w), w).

(** ** GoalsSequencer *)

Record GoalsSequencer : Type := { _GoalFrameId : string }.

Section Sequencer.

Context {F : Type} `{FloatLib F}.

Definition __init__ (goalFrameId : string) : IO F GoalsSequencer :=
  emit (InitNode "goalsSequencer") ;~
  emit (NewClient "move_base") ;~
  emit WaitForServer ;~
  ret {| _GoalFrameId := goalFrameId |}.

Definition array_to_quaternion (nparr : ndarray4 F) : Quaternion F :=
  {| quat_x := item0 nparr; quat_y := item1 nparr;
     quat_z := item2 nparr; quat_w := item3 nparr |}.

(** [MoveBaseGoal()]: every number is zero, the frame id is empty. *)
Definition MoveBaseGoal_default : MoveBaseGoal F :=
  {| target_pose :=
      {| header := {| seq := 0; stamp := {| secs := 0; nsecs := 0 |};
                      frame_id := "" |};
         pose := {| position := {| point_x := of_int 0; point_y := of_int 0;
                                   point_z := of_int 0 |};
                    orientation := {| quat_x := of_int 0; quat_y := of_int 0;
                                      quat_z := of_int 0;
                                      quat_w := of_int 0 |} |} |} |}.

Definition _CreateMoveBaseGoal (self : GoalsSequencer) (goal : goal F)
  : IO F (MoveBaseGoal F) :=
  let '(x, y, theta) := goal in
  let moveBaseGoal := MoveBaseGoal_default in
  now <~ Time_now ;;
  let quaternionArray :=
    quaternion_about_axis theta (of_int 0, of_int 0, of_int 1) in
  let moveBaseGoal :=
    {| target_pose :=
        {| header := {| seq := seq (header (target_pose moveBaseGoal));
                        stamp := now;
                        frame_id := _GoalFrameId self |};
           pose := {| position :=
                       {| point_x := x; point_y := y;
                          point_z := point_z (position (pose
                                       (target_pose moveBaseGoal))) |};
                      orientation :=
                        array_to_quaternion quaternionArray |} |} |} in
  print (PMoveBaseGoal moveBaseGoal) ;~
  ret moveBaseGoal.

Definition _NavigateToGoal (self : GoalsSequencer) (goal : goal F)
  : IO F unit :=
  moveBaseGoal <~ _CreateMoveBaseGoal self goal ;;
  send_goal moveBaseGoal ;~
  wait_for_result ;~
  state <~ get_state ;;
  if GoalStatus_eqb state SUCCEEDED then loginfo "Goal reached"
  else logerr "Could not execute goal for some reason".

Fixpoint NavigateToGoals (self : GoalsSequencer) (goals : list (goal F))
  : IO F unit :=
  match goals with
  | [] => ret tt
  | goal :: rest =>
      print (PNavigating goal) ;~
      _NavigateToGoal self goal ;~
      NavigateToGoals self rest
  end.

End Sequencer.

(** ** The script ([__main__]) *)

Section Main.

Context `{FloatLib pyfloat}.

(** The path the script reads: [sys.argv[1]] when there is one. *)
Definition goalsFilePath (argv : list string) : string :=
  let goalsFilePath := "./nodes/goals.txt" in
  if (1 <? length argv)%nat then nth 1 argv goalsFilePath
  else goalsFilePath.

(** [argv] is [sys.argv]; the result is the exception the process dies of,
    if any. *)
Definition main (argv : list string) (fs : filesystem)
  : IO pyfloat (result unit) :=
  let goalsFilePath := goalsFilePath argv in
  let goalsFileParser := {| _GoalsFilePath := None |} in
  match snd (Parse goalsFileParser fs goalsFilePath) with
  | Raise e => ret (Raise e)
  | Ok goals =>
      print (PGoals goals) ;~
      goalsSequencer <~ __init__ "/map" ;;
      NavigateToGoals goalsSequencer goals ;~
      ret (Ok tt)
  end.

End Main.

(** ** The record grammar, as the specification words it *)

(** A comment line: its trimmed content starts with the marker. *)
Definition is_comment (line : string) : bool := startswith (strip line) "//".

(** A blank line: it trims to the empty string. *)
Definition is_blank (line : string) : bool := strip line =? "".

Definition ignored (line : string) : bool := is_comment line || is_blank line.

(** The name the parser expects at each of the three positions. *)
Definition expected_name (i : nat) : string :=
  match i with
  | 0 => "x"
  | 1 => "y"
  | _ => "theta"
  end.

(** [name = <float>], white space around the sign being insignificant. *)
Definition well_formed_field (name field : string) : bool :=
  match split "=" field with
  | [n; v] => (strip n =? name) && is_ok (float (strip v))
  | _ => false
  end.

(** Exactly three comma-separated fields, in the order x, y, theta. *)
Definition well_formed_record (line : string) : bool :=
  match split "," (strip line) with
  | [f0; f1; f2] =>
      well_formed_field "x" f0 && well_formed_field "y" f1
      && well_formed_field "theta" f2
  | _ => false
  end.

(** A well-formed file: every line is a comment, blank, or a record of the
    grammar. *)
Definition well_formed_file (content : string) : bool :=
  forallb (fun line => ignored line || well_formed_record line)
          (readlines content).

(** The lines of a file that are records. *)
Definition record_lines (content : string) : list string :=
  filter (fun line => negb (ignored line)) (readlines content).

(** ** What [_ExtractValue] reads in a field *)

(** The name found in a field: [nameValueParts[0].strip()]. *)
Definition field_name (field : string) : string :=
  strip (hd EmptyString (split "=" field)).

(** A field that [_ExtractValue name] accepts with value [v]: the text
    before the first '=' trims to [name], and the text between the first
    '=' and the second (or the end of the field) is a float literal. *)
Definition accepted_field (name field : string) (v : pyfloat) : Prop :=
  exists n value more,
    split "=" field = n :: value :: more /\
    strip n = name /\ float (strip value) = Ok v.

(** ** The run of a goal sequence, as the specification words it *)

Section SequencerSpec.

Context {F : Type} `{FloatLib F}.

(** The navigation request of a goal: its position, the orientation
    computed from theta about the vertical axis, the frame of the run and
    the time stamp. *)
Definition NavigationRequest (frame : string) (now : Time) (g : goal F)
  : MoveBaseGoal F :=
  let '(x, y, theta) := g in
  {| target_pose :=
      {| header := {| seq := 0; stamp := now; frame_id := frame |};
         pose := {| position := {| point_x := x; point_y := y;
                                   point_z := of_int 0 |};
                    orientation :=
                      array_to_quaternion
                        (quaternion_about_axis
                           theta (of_int 0, of_int 0, of_int 1)) |} |} |}.

(** One request per goal, in sequence order; the first is stamped with the
    [k]-th reading of the clock, the next with the one after, and so on. *)
Fixpoint requests (frame : string) (env : Env F) (k : nat)
  (goals : list (goal F)) : list (MoveBaseGoal F) :=
  match goals with
  | [] => []
  | g :: rest =>
      NavigationRequest frame (clock env k) g :: requests frame env (S k) rest
  end.

(** The terminal outcome of each request, [history] being what was sent
    before the first of them. *)
Fixpoint outcomes (env : Env F) (history reqs : list (MoveBaseGoal F))
  : list GoalStatus :=
  match reqs with
  | [] => []
  | r :: rest =>
      server env (history ++ [r]) :: outcomes env (history ++ [r]) rest
  end.

(** The outcome line: info severity on success, error severity otherwise. *)
Definition outcome_line (st : GoalStatus) : Event F :=
  match st with
  | SUCCEEDED => LogInfo "Goal reached"
  | _ => LogErr "Could not execute goal for some reason"
  end.

(** Events that leave the process: text on standard output, log lines and
    requests to the navigation service. *)
Definition is_output (e : Event F) : bool :=
  match e with
  | Print _ | SendGoal _ | LogInfo _ | LogErr _ => true
  | _ => false
  end.

Definition is_print (e : Event F) : bool :=
  match e with
  | Print _ => true
  | _ => false
  end.

(** The exchange with the navigation service and the log: the trace
    without what goes to standard output. *)
Definition protocol (evs : list (Event F)) : list (Event F) :=
  filter (fun e => negb (is_print e)) evs.

(** The goals submitted, in the order of submission. *)
Definition submissions (evs : list (Event F)) : list (MoveBaseGoal F) :=
  flat_map (fun e => match e with SendGoal m => [m] | _ => [] end) evs.

(** The events of one goal. *)
Definition goal_events (g : goal F) (r : MoveBaseGoal F) (st : GoalStatus)
  : list (Event F) :=
  [Print (PNavigating g); Print (PMoveBaseGoal r); SendGoal r; WaitForResult;
   outcome_line st].

End SequencerSpec.

(** ** [tf.transformations] over the real numbers *)

Module TF.

Local Open Scope R_scope.

(** [_EPS = numpy.finfo(float).eps * 4.0] *)
Definition _EPS : R := / 2 ^ 52 * 4.

(** [vector_norm] of a one-dimensional array of four numbers. *)
Definition vector_norm (a : ndarray4 R) : R :=
  let '(a0, a1, a2, a3) := a in sqrt (a0 * a0 + a1 * a1 + a2 * a2 + a3 * a3).

Definition scale (k : R) (a : ndarray4 R) : ndarray4 R :=
  let '(a0, a1, a2, a3) := a in (a0 * k, a1 * k, a2 * k, a3 * k).

(** Modelled from the spec: [tf.transformations.quaternion_about_axis]
    belongs to the ROS tf library, which is not part of the repository; the
    specification (4.2) gives it as the standard half-angle formula, a unit
    quaternion for the rotation by the angle about the axis, in the order
    x, y, z, w.  The definition follows the library's steps (the axis is
    put in a zero array, scaled by [sin(angle/2)] over its norm when the
    norm exceeds [_EPS], and [cos(angle/2)] is stored last), with real
    numbers for binary64 floats. *)
Definition quaternion_about_axis (angle : R) (axis : R * R * R) : ndarray4 R :=
  let '(u0, u1, u2) := axis in
  let quaternion := (u0, u1, u2, 0) in
  let qlen := vector_norm quaternion in
  let quaternion :=
    if Rlt_dec _EPS qlen then scale (sin (angle / 2) / qlen) quaternion
    else quaternion in
  let '(q0, q1, q2, _) := quaternion in
  (q0, q1, q2, cos (angle / 2)).

End TF.

#[export] Instance FloatLib_R : FloatLib R :=
  {| of_int := IZR; quaternion_about_axis := TF.quaternion_about_axis |}.

(** ** Predicates on strings used in the statements *)

(** A string of white space only (the empty string included). *)
Fixpoint all_space (s : string) : bool :=
  match s with
  | String c r => isspace c && all_space r
  | EmptyString => true
  end.

(** The character [c] occurs in [s]. *)
Fixpoint has_char (c : ascii) (s : string) : bool :=
  match s with
  | String a r => Ascii.eqb a c || has_char c r
  | EmptyString => false
  end.

(** ** Sample inputs *)

Definition NL : string := String "010"%char EmptyString.

Definition goals_txt : string :=
  "// two goals" ++ NL ++ "x = 1.5, y = -2.25, theta = 0.0" ++ NL
  ++ NL ++ "  x=2 ,y= 3e0, theta =-.5  " ++ NL.

Definition comments_txt : string :=
  "// nothing here" ++ NL ++ "   " ++ NL ++ "//x = 1" ++ NL.

Definition sample_fs : filesystem :=
  fun path =>
    if path =? "goals.txt" then Some goals_txt
    else if path =? "comments.txt" then Some comments_txt
    else None.

Definition sample_clock (k : nat) : Time :=
  {| secs := 1326000000 + Z.of_nat k; nsecs := 0 |}.

(** A service that fails the second goal it is sent and reaches the
    others. *)
Definition sample_env : Env R :=
  {| clock := sample_clock;
     server := fun history => match length history with
                              | 2 => ABORTED
                              | _ => SUCCEEDED
                              end |}.

Definition new_world : World R :=
  {| now_calls := 0; sent := []; trace := [] |}.

Definition map_frame : GoalsSequencer := {| _GoalFrameId := "/map" |}.

Definition three_goals : list (goal R) :=
  [(1, 2, 0); (3, 4, PI); (5, 6, PI / 2)]%R.

(** A file whose third line has a wrong name and whose fourth has a value
    that is not a number. *)
Definition bad_txt : string :=
  "x = 1, y = 2, theta = 3" ++ NL ++ "// second leg" ++ NL
  ++ "x = 4, z = 5, theta = 6" ++ NL ++ "x = seven, y = 8, theta = 9" ++ NL.

Definition more_txt : string := "x = 7, y = 8, theta = 9".

(** A service that rejects every goal, on the clock of [sample_env]. *)
Definition rejecting_env : Env R :=
  {| clock := sample_clock; server := fun _ => REJECTED |}.

Definition two_files_fs : filesystem :=
  fun path =>
    if path =? "a.txt" then Some (goals_txt ++ NL)%string
    else if path =? "b.txt" then Some more_txt
    else if path =? "ab.txt" then Some ((goals_txt ++ NL) ++ more_txt)%string
    else None.

(** * Properties *)

(** ** Strings *)

Lemma length_zero_iff (s : string) : (String.length s =? 0)%nat = (s =? "").
Proof. destruct s; reflexivity. Qed.

Lemma split_not_nil (sep : ascii) (s : string) : split sep s <> [].
Proof.
  induction s as [|c r IH]; simpl; [discriminate|].
  destruct (Ascii.eqb c sep); [discriminate|].
  destruct (split sep r); [contradiction|discriminate].
Qed.

(** The lines of a file, put end to end, are the file. *)
Lemma readlines_concat (content : string) :
  fold_right String.append EmptyString (readlines content) = content.
Proof.
  induction content as [|c r IH]; [reflexivity|].
  cbn [readlines]. destruct (Ascii.eqb c "010").
  - cbn [fold_right String.append]. rewrite IH. reflexivity.
  - destruct (readlines r) as [|h t]; cbn [fold_right String.append] in *.
    + rewrite <- IH. reflexivity.
    + rewrite IH. reflexivity.
Qed.

(** Only the last character of a line can be a newline. *)
Lemma readlines_newline_last (content : string) :
  Forall (fun line =>
            forall i, String.get i line = Some "010"%char ->
                      S i = String.length line)
         (readlines content).
Proof.
  induction content as [|c r IH]; [constructor|].
  cbn [readlines]. destruct (Ascii.eqb_spec c "010") as [->|Hc].
  - constructor; [|exact IH].
    intros [|i] Hi; [reflexivity|]. destruct i; discriminate.
  - destruct (readlines r) as [|h t].
    + constructor; [|constructor].
      intros [|i] Hi; cbn [String.get] in Hi.
      * injection Hi as ->. contradiction.
      * destruct i; discriminate.
    + inversion IH as [|? ? Hh Ht]; subst. constructor; [|exact Ht].
      intros [|i] Hi; cbn [String.get] in Hi.
      * injection Hi as ->. contradiction.
      * cbn [String.length]. f_equal. apply Hh. exact Hi.
Qed.

(** One part more than there are separators. *)
Lemma split_length (sep : ascii) (s : string) :
  length (split sep s)
  = S (length (filter (Ascii.eqb sep) (list_ascii_of_string s))).
Proof.
  induction s as [|c r IH]; [reflexivity|].
  cbn [split list_ascii_of_string filter].
  rewrite (Ascii.eqb_sym sep c). destruct (Ascii.eqb c sep).
  - cbn [length]. rewrite IH. reflexivity.
  - destruct (split sep r) as [|h t] eqn:Hs; cbn [length] in *.
    + exfalso. exact (split_not_nil _ _ Hs).
    + exact IH.
Qed.

(** ** The parser *)

Lemma ignored_spec (line : string) :
  ignored line = true <->
  startswith (strip line) "//" = true \/ strip line = "".
Proof.
  unfold ignored, is_comment, is_blank.
  rewrite orb_true_iff, String.eqb_eq. reflexivity.
Qed.

Lemma _ParseLine_ignored (line : string) :
  ignored line = true -> _ParseLine line = Ok None.
Proof.
  unfold ignored, is_comment, is_blank, _ParseLine. intros Hi.
  destruct (startswith (strip line) "//"); [reflexivity|].
  rewrite length_zero_iff. simpl in Hi. rewrite Hi. reflexivity.
Qed.

(** The body of [_ParseLine] on a line that is not ignored. *)
Lemma _ParseLine_record (line : string) :
  ignored line = false ->
  _ParseLine line =
    (p0 <- getitem (split "," (strip line)) 0 ;;
     x <- _ExtractValue "x" p0 ;;
     p1 <- getitem (split "," (strip line)) 1 ;;
     y <- _ExtractValue "y" p1 ;;
     p2 <- getitem (split "," (strip line)) 2 ;;
     theta <- _ExtractValue "theta" p2 ;;
     Ok (Some (x, y, theta))).
Proof.
  unfold ignored, is_comment, is_blank, _ParseLine. intros Hi.
  apply orb_false_iff in Hi. destruct Hi as [Hc Hb].
  rewrite Hc, length_zero_iff, Hb. reflexivity.
Qed.

Lemma _ParseLine_record_not_None (line : string) :
  ignored line = false -> _ParseLine line <> Ok None.
Proof.
  intros Hi. rewrite (_ParseLine_record line Hi).
  destruct (getitem (split "," (strip line)) 0) as [p0|]; [|discriminate].
  simpl. destruct (_ExtractValue "x" p0); [|discriminate].
  simpl. destruct (getitem (split "," (strip line)) 1) as [p1|]; [|discriminate].
  simpl. destruct (_ExtractValue "y" p1); [|discriminate].
  simpl. destruct (getitem (split "," (strip line)) 2) as [p2|]; [|discriminate].
  simpl. destruct (_ExtractValue "theta" p2); discriminate.
Qed.

Lemma _ExtractValue_well_formed (name field : string) :
  well_formed_field name field = true ->
  exists v, _ExtractValue name field = Ok v.
Proof.
  unfold well_formed_field, _ExtractValue.
  destruct (split "=" field) as [|n [|v [|? ?]]]; try discriminate.
  intros Hw. apply andb_true_iff in Hw. destruct Hw as [Hn Hv].
  cbn [getitem nth_error bind]. rewrite Hn. cbn [negb].
  destruct (float (strip v)) as [a|e]; [|discriminate].
  exists a. reflexivity.
Qed.

Lemma _ParseLine_well_formed (line : string) :
  ignored line = false -> well_formed_record line = true ->
  exists g, _ParseLine line = Ok (Some g).
Proof.
  intros Hi Hw. rewrite (_ParseLine_record line Hi).
  unfold well_formed_record in Hw.
  destruct (split "," (strip line)) as [|f0 [|f1 [|f2 [|? ?]]]];
    try discriminate.
  apply andb_true_iff in Hw. destruct Hw as [Hw H2].
  apply andb_true_iff in Hw. destruct Hw as [H0 H1].
  destruct (_ExtractValue_well_formed _ _ H0) as [x Hx].
  destruct (_ExtractValue_well_formed _ _ H1) as [y Hy].
  destruct (_ExtractValue_well_formed _ _ H2) as [t Ht].
  cbn [getitem nth_error bind]. rewrite Hx. cbn [bind].
  rewrite Hy. cbn [bind]. rewrite Ht. cbn [bind].
  exists (x, y, t). reflexivity.
Qed.

(** The list built so far is only ever extended. *)
Lemma Parse_loop_acc (lines : list string) :
  forall goals,
    Parse_loop lines goals = (gs <- Parse_loop lines [] ;; Ok (goals ++ gs)).
Proof.
  induction lines as [|line rest IH]; intros goals; cbn [Parse_loop bind].
  - rewrite app_nil_r. reflexivity.
  - destruct (_ParseLine line) as [[g|]|e]; cbn [bind].
    + rewrite (IH (goals ++ [g])), (IH ([] ++ [g])).
      destruct (Parse_loop rest []) as [gs|e]; cbn [bind]; [|reflexivity].
      rewrite <- app_assoc. reflexivity.
    + apply IH.
    + reflexivity.
Qed.

(** A line that raises makes the loop raise, wherever it stands. *)
Lemma Parse_loop_aborts (lines : list string) :
  forall goals line,
    In line lines -> is_ok (_ParseLine line) = false ->
    is_ok (Parse_loop lines goals) = false.
Proof.
  induction lines as [|l rest IH]; intros goals line Hin Hbad; [contradiction|].
  cbn [Parse_loop]. destruct Hin as [-> | Hin].
  - destruct (_ParseLine line); [discriminate|reflexivity].
  - destruct (_ParseLine l) as [[g|]|e]; cbn [bind]; eauto.
Qed.

(** The loop raises the exception of the first line that raises. *)
Lemma Parse_loop_first_error (pre : list string) :
  forall goals line post e,
    Forall (fun l => is_ok (_ParseLine l) = true) pre ->
    _ParseLine line = Raise e ->
    Parse_loop (pre ++ line :: post) goals = Raise e.
Proof.
  induction pre as [|l pre IH]; intros goals line post e Hpre Hbad.
  - cbn [app Parse_loop]. rewrite Hbad. reflexivity.
  - inversion Hpre as [|? ? Hl Hrest]; subst.
    cbn [app Parse_loop]. destruct (_ParseLine l) as [[g|]|e']; cbn [bind].
    + apply IH; assumption.
    + apply IH; assumption.
    + discriminate.
Qed.

Lemma Parse_loop_well_formed (lines : list string) :
  forallb (fun line => ignored line || well_formed_record line) lines = true ->
  exists goals,
    Parse_loop lines [] = Ok goals /\
    Forall2 (fun line g => _ParseLine line = Ok (Some g))
            (filter (fun line => negb (ignored line)) lines) goals.
Proof.
  induction lines as [|line rest IH]; intros Hw.
  - exists []. split; [reflexivity|constructor].
  - cbn [forallb] in Hw. apply andb_true_iff in Hw. destruct Hw as [Hl Hrest].
    destruct (IH Hrest) as [gs [Hgs Hall]].
    cbn [Parse_loop filter]. destruct (ignored line) eqn:Hi.
    + rewrite (_ParseLine_ignored line Hi). cbn [bind negb].
      exists gs. split; assumption.
    + cbn [orb] in Hl. destruct (_ParseLine_well_formed line Hi Hl) as [g Hg].
      rewrite Hg. cbn [bind negb app]. rewrite Parse_loop_acc, Hgs. cbn [bind].
      exists (g :: gs). split; [reflexivity|]. constructor; assumption.
Qed.

(** The parser as the testable properties exercise it. *)
Example parse_sample_line :
  _ParseLine "x = 1.5, y = -2.25, theta = 0.0"
  = Ok (Some (PyFinite false 15 (-1), PyFinite true 225 (-2),
              PyFinite false 0 (-1))).
Proof. reflexivity. Qed.

Example parse_docstring_file :
  Parse_loop
    (readlines ("// End of first hall way leg" ++ NL
                ++ "x = 0.705669820309, y = 3.92879199982, theta = -0.712161728691"
                ++ NL ++ "x = 2.3, y = 0.4, theta = 1.1" ++ NL ++ NL)%string) []
  = Ok [(PyFinite false 705669820309 (-12), PyFinite false 392879199982 (-11),
         PyFinite true 712161728691 (-12));
        (PyFinite false 23 (-1), PyFinite false 4 (-1), PyFinite false 11 (-1))].
Proof. reflexivity. Qed.

(** C2: for every well-formed file (each line a comment, blank, or a
    record of the grammar), [Parse] returns a list with exactly one goal
    per line that is neither a comment nor blank, the i-th goal being the
    parse of the i-th such line; a file of comments and blank lines only
    parses to the empty list. *)
Theorem Parse_one_goal_per_record_line
  (self : GoalsFileParser) (fs : filesystem) (filePath content : string) :
  fs filePath = Some content ->
  well_formed_file content = true ->
  exists goals,
    snd (Parse self fs filePath) = Ok goals /\
    length goals = length (record_lines content) /\
    Forall2 (fun line g => _ParseLine line = Ok (Some g))
            (record_lines content) goals /\
    (forallb ignored (readlines content) = true -> goals = []).
Proof.
  intros Hfs Hw. unfold Parse. rewrite Hfs. cbn [snd].
  destruct (Parse_loop_well_formed _ Hw) as [goals [Hp Hall]].
  exists goals. split; [exact Hp|]. split; [|split; [exact Hall|]].
  - symmetry. eapply Forall2_length. exact Hall.
  - intros Hign. unfold record_lines in Hall.
    assert (Hnil : filter (fun line => negb (ignored line)) (readlines content)
                   = []).
    { clear -Hign. induction (readlines content) as [|l ls IH];
        [reflexivity|].
      cbn [forallb] in Hign. apply andb_true_iff in Hign.
      destruct Hign as [Hl Hls]. cbn [filter]. rewrite Hl. cbn [negb].
      apply IH. exact Hls. }
    rewrite Hnil in Hall. inversion Hall. reflexivity.
Qed.

Lemma Parse_one_goal_per_record_line_witness :
  exists goals,
    snd (Parse {| _GoalsFilePath := None |} sample_fs "goals.txt") = Ok goals /\
    length goals = length (record_lines goals_txt) /\
    Forall2 (fun line g => _ParseLine line = Ok (Some g))
            (record_lines goals_txt) goals /\
    (forallb ignored (readlines goals_txt) = true -> goals = []).
Proof.
  apply (Parse_one_goal_per_record_line
           {| _GoalsFilePath := None |} sample_fs "goals.txt" goals_txt);
    reflexivity.
Defined.

(** ** Which lines are ignored *)

(** C8: a line is ignored (it yields no goal and raises nothing, and the
    list being built is left as it is) if and only if its trimmed content
    starts with "//" or is empty; every other line goes through the record
    path, which ends in a goal or in an exception. *)
Theorem _ParseLine_ignores_exactly (line : string) :
  (_ParseLine line = Ok None <->
   startswith (strip line) "//" = true \/ strip line = "") /\
  (_ParseLine line = Ok None ->
   forall rest goals, Parse_loop (line :: rest) goals = Parse_loop rest goals) /\
  (_ParseLine line <> Ok None ->
   _ParseLine line =
     (p0 <- getitem (split "," (strip line)) 0 ;;
      x <- _ExtractValue "x" p0 ;;
      p1 <- getitem (split "," (strip line)) 1 ;;
      y <- _ExtractValue "y" p1 ;;
      p2 <- getitem (split "," (strip line)) 2 ;;
      theta <- _ExtractValue "theta" p2 ;;
      Ok (Some (x, y, theta))) /\
   ((exists g, _ParseLine line = Ok (Some g)) \/
    (exists e, _ParseLine line = Raise e))).
Proof.
  split; [|split].
  - rewrite <- ignored_spec. split.
    + intros Hp. destruct (ignored line) eqn:Hi; [reflexivity|].
      exfalso. exact (_ParseLine_record_not_None line Hi Hp).
    + apply _ParseLine_ignored.
  - intros Hp rest goals. cbn [Parse_loop]. rewrite Hp. reflexivity.
  - intros Hp. destruct (ignored line) eqn:Hi.
    + exfalso. apply Hp. apply _ParseLine_ignored. exact Hi.
    + split; [apply _ParseLine_record; exact Hi|].
      destruct (_ParseLine line) as [[g|]|e]; [left|contradiction|right]; eauto.
Qed.

Example ignored_lines :
  map _ParseLine ["// comment"; "   //x = 1, y = 2, theta = 3" ++ NL;
                  NL; "  "; ""; "/ / x"; "x = 1 // y"]%string
  = [Ok None; Ok None; Ok None; Ok None; Ok None;
     Raise (NameError "Expected variable name x but found / / x");
     Raise (ValueError "1 // y")].
Proof. reflexivity. Qed.

(** ** Parsing is a function of the file's text *)

(** C9: the result of [Parse] depends on the text of the file only: two
    parses of the same text give equal results, whatever the parser object
    and the rest of the file system; in particular parsing again with the
    object the first parse left behind gives the same result and leaves the
    object as it is. *)
Theorem Parse_deterministic
  (self1 self2 : GoalsFileParser) (fs1 fs2 : filesystem) (filePath : string) :
  fs1 filePath = fs2 filePath ->
  snd (Parse self1 fs1 filePath) = snd (Parse self2 fs2 filePath) /\
  Parse (fst (Parse self1 fs1 filePath)) fs2 filePath = Parse self1 fs1 filePath.
Proof.
  intros Hfs. unfold Parse. rewrite Hfs.
  destruct (fs2 filePath); split; reflexivity.
Qed.

Lemma Parse_deterministic_witness :
  snd (Parse {| _GoalsFilePath := None |} sample_fs "goals.txt")
  = snd (Parse {| _GoalsFilePath := Some "other.txt" |}
               (fun _ => Some goals_txt) "goals.txt") /\
  Parse (fst (Parse {| _GoalsFilePath := None |} sample_fs "goals.txt"))
        (fun _ => Some goals_txt) "goals.txt"
  = Parse {| _GoalsFilePath := None |} sample_fs "goals.txt".
Proof.
  apply (Parse_deterministic {| _GoalsFilePath := None |}
           {| _GoalsFilePath := Some "other.txt" |}
           sample_fs (fun _ => Some goals_txt) "goals.txt").
  reflexivity.
Defined.

(** ** Index errors *)

(** C10: some lines that are not ignored make the parser index a list out
    of range: a line with fewer than three comma-separated fields (the
    access [lineParts[2]]), and a line with a field without '=' (the access
    [nameValueParts[1]]); both end in IndexError, not in the NameError or
    the ValueError of [_ExtractValue]. *)
Theorem _ParseLine_index_out_of_range :
  (exists line,
      ignored line = false /\
      length (split "," (strip line)) < 3 /\
      getitem (split "," (strip line)) 2 = Raise IndexError /\
      _ParseLine line = Raise IndexError) /\
  (exists line field,
      ignored line = false /\
      In field (split "," (strip line)) /\
      String.index 0 "=" field = None /\
      getitem (split "=" field) 1 = Raise IndexError /\
      _ParseLine line = Raise IndexError).
Proof.
  split.
  - exists "x = 1, y = 2". repeat split; try reflexivity. vm_compute. lia.
  - exists "x, y = 2, theta = 3", "x". repeat split; try reflexivity.
    left. reflexivity.
Qed.

(** ** What [_ExtractValue] accepts and what it raises *)

Lemma float_raises (s : string) (e : exn) :
  float s = Raise e -> e = ValueError s.
Proof.
  unfold float. destruct (sign (strip s)) as [neg body].
  destruct (parse_decimal body) as [[m ex]|]; [discriminate|].
  destruct (parse_inf_or_nan body); [discriminate|].
  intros Hr. injection Hr as <-. reflexivity.
Qed.

Lemma _ExtractValue_Ok_iff (name field : string) (v : pyfloat) :
  _ExtractValue name field = Ok v <-> accepted_field name field v.
Proof.
  unfold _ExtractValue, accepted_field.
  destruct (split "=" field) as [|n l]; cbn [getitem nth_error bind].
  - split; [discriminate|].
    intros (n' & v' & m' & Heq & _). discriminate.
  - destruct (String.eqb_spec (strip n) name) as [Hn|Hn]; cbn [negb].
    + destruct l as [|value more]; cbn [getitem nth_error bind].
      * split; [discriminate|].
        intros (n' & v' & m' & Heq & _). discriminate.
      * split.
        -- intros Hf. exists n, value, more. auto.
        -- intros (n' & v' & m' & Heq & _ & Hf). congruence.
    + split; [discriminate|].
      intros (n' & v' & m' & Heq & Hn' & _). congruence.
Qed.

Lemma _ExtractValue_wrong_name (name field : string) :
  field_name field <> name ->
  _ExtractValue name field
  = Raise (NameError ("Expected variable name " ++ name
                      ++ " but found " ++ field_name field)).
Proof.
  unfold _ExtractValue, field_name. intros Hne.
  destruct (split "=" field) as [|n l] eqn:Hs.
  - exfalso. exact (split_not_nil _ _ Hs).
  - cbn [getitem nth_error bind hd] in *.
    destruct (String.eqb_spec (strip n) name) as [Hn|Hn]; [contradiction|].
    reflexivity.
Qed.

Lemma _ExtractValue_bad_value (name field value : string) :
  field_name field = name ->
  nth_error (split "=" field) 1 = Some value ->
  is_ok (float (strip value)) = false ->
  _ExtractValue name field = Raise (ValueError (strip value)).
Proof.
  unfold _ExtractValue, field_name. intros Hn Hv Hf.
  destruct (split "=" field) as [|n [|v more]]; try discriminate.
  cbn [getitem nth_error bind hd] in *. injection Hv as ->.
  rewrite Hn, String.eqb_refl. cbn [negb].
  destruct (float (strip value)) as [a|e] eqn:He; [discriminate|].
  rewrite (float_raises _ _ He). reflexivity.
Qed.

(** [_ParseLine] raises what the first field that is not accepted raises. *)
Lemma _ParseLine_first_bad_field (line : string) (i : nat) (field : string)
  (e : exn) :
  ignored line = false ->
  i < 3 ->
  nth_error (split "," (strip line)) i = Some field ->
  (forall j fj, j < i -> nth_error (split "," (strip line)) j = Some fj ->
                is_ok (_ExtractValue (expected_name j) fj) = true) ->
  _ExtractValue (expected_name i) field = Raise e ->
  _ParseLine line = Raise e.
Proof.
  intros Hi Hlt Hnth Hearly Hbad. rewrite (_ParseLine_record line Hi).
  destruct (split "," (strip line)) as [|f0 fields]; [destruct i; discriminate|].
  cbn [getitem nth_error bind].
  destruct i as [|i].
  { cbn [nth_error] in Hnth. injection Hnth as ->.
    cbn [expected_name] in Hbad. rewrite Hbad. reflexivity. }
  assert (H0 := Hearly 0 f0 ltac:(lia) eq_refl). cbn [expected_name] in H0.
  destruct (_ExtractValue "x" f0) as [x|]; [|discriminate]. cbn [bind].
  destruct fields as [|f1 fields]; [destruct i; discriminate|].
  cbn [getitem nth_error bind].
  destruct i as [|i].
  { cbn [nth_error] in Hnth. injection Hnth as ->.
    cbn [expected_name] in Hbad. rewrite Hbad. reflexivity. }
  assert (H1 := Hearly 1 f1 ltac:(lia) eq_refl). cbn [expected_name] in H1.
  destruct (_ExtractValue "y" f1) as [y|]; [|discriminate]. cbn [bind].
  destruct fields as [|f2 fields]; [destruct i; discriminate|].
  cbn [getitem nth_error bind].
  destruct i as [|i]; [|lia].
  cbn [nth_error] in Hnth. injection Hnth as ->.
  cbn [expected_name] in Hbad. rewrite Hbad. reflexivity.
Qed.

Lemma Parse_aborts (self : GoalsFileParser) (fs : filesystem)
  (filePath content line : string) :
  fs filePath = Some content ->
  In line (readlines content) ->
  is_ok (_ParseLine line) = false ->
  is_ok (snd (Parse self fs filePath)) = false.
Proof.
  intros Hfs Hin Hbad. unfold Parse. rewrite Hfs. cbn [snd].
  eapply Parse_loop_aborts; eassumption.
Qed.

(** ** The records the parser accepts *)

(** C3 (as amended): a line is accepted as a record exactly when it is not
    ignored and it has at least three comma-separated fields of which the
    first three are accepted as x, y and theta, in this order; further
    fields are not looked at.  A line that raises makes the whole parse
    raise: no list is returned and the line is not skipped. *)
Theorem _ParseLine_accepts_first_three_fields (line : string) :
  (forall x y theta,
      _ParseLine line = Ok (Some (x, y, theta)) <->
      ignored line = false /\
      exists f0 f1 f2 more,
        split "," (strip line) = f0 :: f1 :: f2 :: more /\
        accepted_field "x" f0 x /\ accepted_field "y" f1 y /\
        accepted_field "theta" f2 theta) /\
  (is_ok (_ParseLine line) = false ->
   (forall lines goals,
       In line lines -> is_ok (Parse_loop lines goals) = false) /\
   (forall self fs filePath content,
       fs filePath = Some content -> In line (readlines content) ->
       is_ok (snd (Parse self fs filePath)) = false)).
Proof.
  split.
  - intros x y theta. split.
    + intros Hp. destruct (ignored line) eqn:Hi.
      { rewrite (_ParseLine_ignored line Hi) in Hp. discriminate. }
      split; [reflexivity|]. rewrite (_ParseLine_record line Hi) in Hp.
      destruct (split "," (strip line)) as [|f0 [|f1 [|f2 more]]];
        cbn [getitem nth_error bind] in Hp; try discriminate.
      * destruct (_ExtractValue "x" f0); discriminate.
      * destruct (_ExtractValue "x" f0); [cbn [bind] in Hp|discriminate].
        destruct (_ExtractValue "y" f1); discriminate.
      * destruct (_ExtractValue "x" f0) as [x'|] eqn:Hx; [|discriminate].
        cbn [bind] in Hp.
        destruct (_ExtractValue "y" f1) as [y'|] eqn:Hy; [|discriminate].
        cbn [bind] in Hp.
        destruct (_ExtractValue "theta" f2) as [t'|] eqn:Ht; [|discriminate].
        cbn [bind] in Hp. injection Hp as -> -> ->.
        exists f0, f1, f2, more. rewrite <- !_ExtractValue_Ok_iff. auto.
    + intros [Hi (f0 & f1 & f2 & more & Hs & Hx & Hy & Ht)].
      rewrite (_ParseLine_record line Hi), Hs. cbn [getitem nth_error bind].
      apply _ExtractValue_Ok_iff in Hx, Hy, Ht. rewrite Hx. cbn [bind].
      rewrite Hy. cbn [bind]. rewrite Ht. reflexivity.
  - intros Hbad. split.
    + intros lines goals Hin. eapply Parse_loop_aborts; eassumption.
    + intros self fs filePath content Hfs Hin.
      eapply Parse_aborts; eassumption.
Qed.

(** C3 (as stated) fails: a record with a fourth comma-separated field is
    accepted, and so is a field with a second '='. *)
Lemma fourth_field_is_accepted :
  length (split "," (strip "x = 1, y = 2, theta = 3, z = 4")) = 4 /\
  well_formed_record "x = 1, y = 2, theta = 3, z = 4" = false /\
  _ParseLine "x = 1, y = 2, theta = 3, z = 4"
  = Ok (Some (PyFinite false 1 0, PyFinite false 2 0, PyFinite false 3 0)) /\
  Parse_loop ["x = 1, y = 2, theta = 3, z = 4"; "x = 1 = 9, y = 2, theta = 3"] []
  = Ok [(PyFinite false 1 0, PyFinite false 2 0, PyFinite false 3 0);
        (PyFinite false 1 0, PyFinite false 2 0, PyFinite false 3 0)].
Proof. repeat split. Qed.

(** ** Wrong names *)

(** C4 (as amended): on a line that is not ignored, if the name found in
    one of the first three fields differs from the name expected at its
    position and every field before it is accepted, [_ParseLine] raises the
    NameError whose message gives the expected and the found name, and so
    does the parse of a file in which no earlier line raises. *)
Theorem _ParseLine_wrong_name (line : string) (i : nat) (field : string) :
  ignored line = false ->
  i < 3 ->
  nth_error (split "," (strip line)) i = Some field ->
  (forall j fj, j < i -> nth_error (split "," (strip line)) j = Some fj ->
                is_ok (_ExtractValue (expected_name j) fj) = true) ->
  field_name field <> expected_name i ->
  _ParseLine line
  = Raise (NameError ("Expected variable name " ++ expected_name i
                      ++ " but found " ++ field_name field)) /\
  (forall pre post goals,
      Forall (fun l => is_ok (_ParseLine l) = true) pre ->
      Parse_loop (pre ++ line :: post) goals
      = Raise (NameError ("Expected variable name " ++ expected_name i
                          ++ " but found " ++ field_name field))).
Proof.
  intros Hi Hlt Hnth Hearly Hname.
  assert (Hline : _ParseLine line
                  = Raise (NameError ("Expected variable name "
                                      ++ expected_name i
                                      ++ " but found " ++ field_name field))).
  { eapply _ParseLine_first_bad_field; try eassumption.
    apply _ExtractValue_wrong_name. exact Hname. }
  split; [exact Hline|].
  intros pre post goals Hpre. apply Parse_loop_first_error; assumption.
Qed.

Lemma _ParseLine_wrong_name_witness :
  _ParseLine "y = 1.5, x = -2.25, theta = 0.0"
  = Raise (NameError "Expected variable name x but found y").
Proof.
  refine (proj1 (_ParseLine_wrong_name
                   "y = 1.5, x = -2.25, theta = 0.0" 0 "y = 1.5" _ _ _ _ _)).
  - reflexivity.
  - lia.
  - reflexivity.
  - intros j fj Hj. lia.
  - vm_compute. discriminate.
Defined.

(** C4 (as stated) fails: the second field has the name q where y is
    expected, but the first field raises first, and what it raises is not
    a NameError. *)
Lemma wrong_name_after_bad_field :
  ignored "x = abc, q = 1.0, theta = 0.0" = false /\
  nth_error (split "," (strip "x = abc, q = 1.0, theta = 0.0")) 1
  = Some " q = 1.0" /\
  field_name " q = 1.0" = "q" /\
  expected_name 1 = "y" /\
  _ParseLine "x = abc, q = 1.0, theta = 0.0" = Raise (ValueError "abc") /\
  _ParseLine "x, q = 1.0, theta = 0.0" = Raise IndexError.
Proof. repeat split. Qed.

(** ** Values that are not floats *)

Lemma main_parse_error (L : FloatLib pyfloat) (argv : list string)
  (fs : filesystem) (env : Env pyfloat) (w : World pyfloat) :
  is_ok (snd (Parse {| _GoalsFilePath := None |} fs (goalsFilePath argv)))
  = false ->
  exists e, main argv fs env w = (Raise e, w).
Proof.
  unfold main. intros Hbad.
  destruct (snd (Parse {| _GoalsFilePath := None |} fs (goalsFilePath argv)))
    as [goals|e]; [discriminate|].
  exists e. reflexivity.
Qed.

(** C5 (as amended): on a line that is not ignored, if one of the first
    three fields has the expected name and a value segment that is not a
    float literal, and every field before it is accepted, [_ParseLine]
    raises the ValueError of [float]; every parse of a file with this line
    raises, and the script then ends on the exception with the world as it
    was: nothing is printed, no node is started and no goal is sent. *)
Theorem _ParseLine_bad_value (line : string) (i : nat) (field value : string) :
  ignored line = false ->
  i < 3 ->
  nth_error (split "," (strip line)) i = Some field ->
  (forall j fj, j < i -> nth_error (split "," (strip line)) j = Some fj ->
                is_ok (_ExtractValue (expected_name j) fj) = true) ->
  field_name field = expected_name i ->
  nth_error (split "=" field) 1 = Some value ->
  is_ok (float (strip value)) = false ->
  _ParseLine line = Raise (ValueError (strip value)) /\
  (forall self fs filePath content,
      fs filePath = Some content -> In line (readlines content) ->
      is_ok (snd (Parse self fs filePath)) = false) /\
  (forall (L : FloatLib pyfloat) argv fs content env w,
      fs (goalsFilePath argv) = Some content -> In line (readlines content) ->
      exists e, main argv fs env w = (Raise e, w)).
Proof.
  intros Hi Hlt Hnth Hearly Hname Hval Hfloat.
  assert (Hline : _ParseLine line = Raise (ValueError (strip value))).
  { eapply _ParseLine_first_bad_field; try eassumption.
    apply _ExtractValue_bad_value; assumption. }
  split; [exact Hline|]. split.
  - intros self fs filePath content Hfs Hin.
    eapply Parse_aborts; try eassumption. rewrite Hline. reflexivity.
  - intros L argv fs content env w Hfs Hin. apply main_parse_error.
    eapply Parse_aborts; try eassumption. rewrite Hline. reflexivity.
Qed.

Lemma _ParseLine_bad_value_witness :
  _ParseLine "x = abc, y = 1.0, theta = 0.0" = Raise (ValueError "abc").
Proof.
  refine (proj1 (_ParseLine_bad_value
                   "x = abc, y = 1.0, theta = 0.0" 0 "x = abc" " abc"
                   _ _ _ _ _ _ _)).
  - reflexivity.
  - lia.
  - reflexivity.
  - intros j fj Hj. lia.
  - reflexivity.
  - reflexivity.
  - reflexivity.
Defined.

(** C5 (as stated) fails: a value that is not a float under a wrong name
    gives the NameError, and in a fourth field it gives no error at all. *)
Lemma bad_value_without_ValueError :
  ignored "q = abc, y = 1.0, theta = 0.0" = false /\
  nth_error (split "," (strip "q = abc, y = 1.0, theta = 0.0")) 0
  = Some "q = abc" /\
  nth_error (split "=" "q = abc") 1 = Some " abc" /\
  float (strip " abc") = Raise (ValueError "abc") /\
  _ParseLine "q = abc, y = 1.0, theta = 0.0"
  = Raise (NameError "Expected variable name x but found q") /\
  nth_error (split "," (strip "x = 1, y = 2, theta = 3, z = abc")) 3
  = Some " z = abc" /\
  nth_error (split "=" " z = abc") 1 = Some " abc" /\
  _ParseLine "x = 1, y = 2, theta = 3, z = abc"
  = Ok (Some (PyFinite false 1 0, PyFinite false 2 0, PyFinite false 3 0)).
Proof. repeat split. Qed.

(** ** The sequencer *)

Section SequencerProperties.

Context {F : Type} `{FloatLib F}.

Lemma _CreateMoveBaseGoal_run (self : GoalsSequencer) (g : goal F)
  (env : Env F) (w : World F) :
  _CreateMoveBaseGoal self g env w
  = (NavigationRequest (_GoalFrameId self) (clock env (now_calls w)) g,
     {| now_calls := S (now_calls w); sent := sent w;
        trace := trace w
                 ++ [Print (PMoveBaseGoal
                              (NavigationRequest (_GoalFrameId self)
                                 (clock env (now_calls w)) g))] |}).
Proof. destruct g as [[x y] theta]. reflexivity. Qed.

Lemma _NavigateToGoal_run (self : GoalsSequencer) (g : goal F)
  (env : Env F) (w : World F) :
  let r := NavigationRequest (_GoalFrameId self) (clock env (now_calls w)) g in
  _NavigateToGoal self g env w
  = (tt, {| now_calls := S (now_calls w); sent := sent w ++ [r];
            trace := trace w
                     ++ [Print (PMoveBaseGoal r); SendGoal r; WaitForResult;
                         outcome_line (server env (sent w ++ [r]))] |}).
Proof.
  intros r. unfold _NavigateToGoal, iobind.
  rewrite _CreateMoveBaseGoal_run. fold r.
  cbn [send_goal wait_for_result emit get_state now_calls sent trace].
  destruct (server env (sent w ++ [r])); cbn [GoalStatus_eqb outcome_line];
    unfold loginfo, logerr, emit; cbn [now_calls sent trace];
    rewrite <- !app_assoc; reflexivity.
Qed.

(** The whole run: the world after [NavigateToGoals]. *)
Lemma NavigateToGoals_run (self : GoalsSequencer) (goals : list (goal F))
  (env : Env F) :
  forall w,
    NavigateToGoals self goals env w
    = (tt,
       {| now_calls := now_calls w + length goals;
          sent := sent w ++ requests (_GoalFrameId self) env (now_calls w) goals;
          trace :=
            trace w
            ++ flat_map (fun '(g, r, st) => goal_events g r st)
                 (combine
                    (combine goals
                       (requests (_GoalFrameId self) env (now_calls w) goals))
                    (outcomes env (sent w)
                       (requests (_GoalFrameId self) env (now_calls w)
                          goals))) |}).
Proof.
  induction goals as [|g rest IH]; intros w.
  - destruct w as [n s t]. cbn. rewrite Nat.add_0_r, !app_nil_r. reflexivity.
  - cbn [NavigateToGoals]. unfold iobind at 1. unfold print, emit.
    unfold iobind. rewrite _NavigateToGoal_run.
    cbn [now_calls sent trace]. rewrite IH.
    cbn [now_calls sent trace requests outcomes combine flat_map length
         goal_events].
    rewrite <- !app_assoc. cbn [app].
    rewrite Nat.add_succ_r. reflexivity.
Qed.

Lemma requests_length (frame : string) (env : Env F) (goals : list (goal F)) :
  forall k, length (requests frame env k goals) = length goals.
Proof.
  induction goals as [|g rest IH]; intros k; cbn [requests length];
    [reflexivity|]. rewrite IH. reflexivity.
Qed.

Lemma outcomes_length (env : Env F) (reqs : list (MoveBaseGoal F)) :
  forall history, length (outcomes env history reqs) = length reqs.
Proof.
  induction reqs as [|r rest IH]; intros history; cbn [outcomes length];
    [reflexivity|]. rewrite IH. reflexivity.
Qed.

Lemma requests_nth (frame : string) (env : Env F) (goals : list (goal F)) :
  forall k i g,
    nth_error goals i = Some g ->
    nth_error (requests frame env k goals) i
    = Some (NavigationRequest frame (clock env (k + i)) g).
Proof.
  induction goals as [|g0 rest IH]; intros k i g Hnth.
  - destruct i; discriminate.
  - destruct i as [|i]; cbn [requests nth_error] in *.
    + injection Hnth as ->. rewrite Nat.add_0_r. reflexivity.
    + rewrite (IH (S k) i g Hnth). rewrite Nat.add_succ_r. reflexivity.
Qed.

Lemma outcomes_nth (env : Env F) (reqs : list (MoveBaseGoal F)) :
  forall history i r,
    nth_error reqs i = Some r ->
    nth_error (outcomes env history reqs) i
    = Some (server env (history ++ firstn (S i) reqs)).
Proof.
  induction reqs as [|r0 rest IH]; intros history i r Hnth.
  - destruct i; discriminate.
  - destruct i as [|i]; cbn [outcomes nth_error] in *.
    + reflexivity.
    + rewrite (IH _ i r Hnth). rewrite <- app_assoc. reflexivity.
Qed.

Lemma outcome_line_not_print (st : GoalStatus) :
  is_print (outcome_line (F:=F) st) = false.
Proof. destruct st; reflexivity. Qed.

Lemma outcome_line_not_SendGoal (st : GoalStatus) :
  submissions [outcome_line (F:=F) st] = [].
Proof. destruct st; reflexivity. Qed.

Lemma protocol_goal_events (goals : list (goal F)) :
  forall reqs sts,
    length reqs = length goals ->
    protocol (flat_map (fun '(g, r, st) => goal_events g r st)
                (combine (combine goals reqs) sts))
    = flat_map (fun '(r, st) => [SendGoal r; WaitForResult; outcome_line st])
        (combine reqs sts).
Proof.
  induction goals as [|g rest IH]; intros reqs sts Hlen;
    destruct reqs as [|r reqs]; try discriminate; [reflexivity|].
  destruct sts as [|st sts]; [reflexivity|].
  cbn [combine flat_map goal_events app]. unfold protocol in *.
  cbn [filter is_print negb]. rewrite outcome_line_not_print. cbn [negb].
  rewrite IH by (cbn [length] in Hlen; lia). reflexivity.
Qed.

Lemma submissions_goal_events (goals : list (goal F)) :
  forall reqs sts,
    length reqs = length goals -> length sts = length goals ->
    submissions (flat_map (fun '(g, r, st) => goal_events g r st)
                   (combine (combine goals reqs) sts))
    = reqs.
Proof.
  induction goals as [|g rest IH]; intros reqs sts Hr Hs;
    destruct reqs as [|r reqs]; try discriminate; [reflexivity|].
  destruct sts as [|st sts]; [discriminate|].
  cbn [combine flat_map goal_events app]. unfold submissions in *.
  cbn [flat_map app]. destruct st; cbn [outcome_line app];
    (rewrite IH by (cbn [length] in *; lia)); reflexivity.
Qed.

End SequencerProperties.

(** C1: [NavigateToGoals] takes the goals in sequence order.  There is one
    request per goal, the i-th built from the i-th goal and stamped with
    the i-th reading of the clock; the requests are sent in this order;
    after each, the sequencer waits for the result and logs one line, at
    info severity when the status reported is SUCCEEDED and at error
    severity otherwise, and then goes on to the next goal whatever the
    status was: for n goals there are exactly n submissions. *)
Theorem NavigateToGoals_in_sequence_order
  {F : Type} `{FloatLib F}
  (self : GoalsSequencer) (goals : list (goal F)) (env : Env F) (w : World F) :
  let frame := _GoalFrameId self in
  let reqs := requests frame env (now_calls w) goals in
  let sts := outcomes env (sent w) reqs in
  let w' := snd (NavigateToGoals self goals env w) in
  length reqs = length goals /\
  length sts = length goals /\
  (forall i g, nth_error goals i = Some g ->
               nth_error reqs i
               = Some (NavigationRequest frame (clock env (now_calls w + i)) g)) /\
  (forall i r, nth_error reqs i = Some r ->
               nth_error sts i
               = Some (server env (sent w ++ firstn (S i) reqs))) /\
  sent w' = sent w ++ reqs /\
  exists evs,
    trace w' = trace w ++ evs /\
    submissions evs = reqs /\
    length (submissions evs) = length goals /\
    protocol evs
    = flat_map (fun '(r, st) => [SendGoal r; WaitForResult; outcome_line st])
        (combine reqs sts).
Proof.
  intros frame reqs sts w'.
  assert (Hr : length reqs = length goals) by apply requests_length.
  assert (Hs : length sts = length goals).
  { unfold sts. rewrite outcomes_length. exact Hr. }
  split; [exact Hr|]. split; [exact Hs|].
  split; [intros i g; apply requests_nth|].
  split; [intros i r; apply outcomes_nth|].
  unfold w'. rewrite NavigateToGoals_run. cbn [snd sent trace].
  split; [reflexivity|].
  eexists. split; [reflexivity|].
  fold frame. fold reqs. fold sts.
  rewrite (submissions_goal_events goals reqs sts Hr Hs).
  split; [reflexivity|]. split; [exact Hr|].
  apply protocol_goal_events. exact Hr.
Qed.

(** C7 (as amended): the events of a goal are, in this order, the line
    that announces it, the printed request, the submission of the request,
    the wait for the result and one outcome line, at info severity when the
    status is SUCCEEDED and at error severity otherwise; a sequence of
    goals produces these events goal after goal and nothing else. *)
Theorem goal_side_effects
  {F : Type} `{FloatLib F}
  (self : GoalsSequencer) (g : goal F) (goals : list (goal F))
  (env : Env F) (w : World F) :
  let frame := _GoalFrameId self in
  let r := NavigationRequest frame (clock env (now_calls w)) g in
  let st := server env (sent w ++ [r]) in
  (exists evs,
      trace (snd (NavigateToGoals self [g] env w)) = trace w ++ evs /\
      evs = [Print (PNavigating g); Print (PMoveBaseGoal r); SendGoal r;
             WaitForResult; outcome_line st] /\
      filter is_output evs
      = [Print (PNavigating g); Print (PMoveBaseGoal r); SendGoal r;
         outcome_line st]) /\
  (st = SUCCEEDED -> outcome_line (F:=F) st = LogInfo "Goal reached") /\
  (st <> SUCCEEDED ->
   outcome_line (F:=F) st = LogErr "Could not execute goal for some reason") /\
  trace (snd (NavigateToGoals self goals env w))
  = trace w
    ++ flat_map (fun '(g, r, st) => goal_events g r st)
         (combine
            (combine goals (requests frame env (now_calls w) goals))
            (outcomes env (sent w) (requests frame env (now_calls w) goals))).
Proof.
  intros frame r st. split; [|split; [|split]].
  - eexists. rewrite NavigateToGoals_run. cbn [snd trace].
    split; [reflexivity|].
    cbn [requests outcomes combine flat_map goal_events app].
    fold frame. fold r. fold st.
    split; [reflexivity|]. destruct st; reflexivity.
  - intros ->. reflexivity.
  - intros Hst. destruct st; try reflexivity. contradiction.
  - rewrite NavigateToGoals_run. reflexivity.
Qed.

(** C7 (as stated) fails: besides the announcement, the submission and the
    outcome line, the request itself is printed on standard output. *)
Lemma request_is_printed :
  length (filter is_output
            (trace (snd (NavigateToGoals map_frame [(1, 2, 0)%R]
                           sample_env new_world)))) = 4 /\
  nth_error (trace (snd (NavigateToGoals map_frame [(1, 2, 0)%R]
                           sample_env new_world))) 1
  = Some (Print (PMoveBaseGoal
                   (NavigationRequest "/map" (sample_clock 0) (1, 2, 0)%R))).
Proof.
  rewrite NavigateToGoals_run. split; reflexivity.
Qed.

(** The scenario of the testable properties: success, failure, success. *)
Example three_goals_run :
  let w' := snd (NavigateToGoals map_frame three_goals sample_env new_world) in
  submissions (trace w')
  = [NavigationRequest "/map" (sample_clock 0) (1, 2, 0)%R;
     NavigationRequest "/map" (sample_clock 1) (3, 4, PI)%R;
     NavigationRequest "/map" (sample_clock 2) (5, 6, PI / 2)%R] /\
  filter (fun e => match e with LogInfo _ | LogErr _ => true | _ => false end)
         (trace w')
  = [LogInfo "Goal reached";
     LogErr "Could not execute goal for some reason";
     LogInfo "Goal reached"].
Proof.
  cbv zeta. rewrite NavigateToGoals_run. split; reflexivity.
Qed.

(** A file of comments and blank lines: the script starts the node and
    sends nothing. *)
Example main_comments_only (L : FloatLib pyfloat) (env : Env pyfloat)
  (w : World pyfloat) :
  main ["GoalsSequencer.py"; "comments.txt"]%string sample_fs env w
  = (Ok tt,
     {| now_calls := now_calls w; sent := sent w;
        trace := trace w ++ [Print (PGoals []); InitNode "goalsSequencer";
                             NewClient "move_base"; WaitForServer] |}).
Proof.
  assert (Hp : snd (Parse {| _GoalsFilePath := None |} sample_fs
                      (goalsFilePath ["GoalsSequencer.py"; "comments.txt"]))
               = Ok []) by reflexivity.
  unfold main. rewrite Hp.
  unfold __init__, iobind, print, emit, ret.
  cbn [NavigateToGoals now_calls sent trace]. unfold ret.
  rewrite <- !app_assoc. reflexivity.
Qed.

(** ** The orientation of a request *)

Section Orientation.

Local Open Scope R_scope.

Lemma _EPS_lt_1 : TF._EPS < 1.
Proof.
  unfold TF._EPS.
  assert (Hpow : 4 < 2 ^ 52) by (simpl; lra).
  apply Rmult_lt_reg_r with (r := 2 ^ 52); [lra|].
  rewrite Rmult_comm, <- Rmult_assoc, Rinv_r by lra. lra.
Qed.

(** The quaternion of a rotation about the axis (0, 0, 1). *)
Lemma quaternion_about_z (theta : R) :
  TF.quaternion_about_axis theta (0, 0, 1)
  = (0, 0, sin (theta / 2), cos (theta / 2)).
Proof.
  unfold TF.quaternion_about_axis, TF.vector_norm.
  replace (0 * 0 + 0 * 0 + 1 * 1 + 0 * 0) with 1 by ring.
  rewrite sqrt_1.
  destruct (Rlt_dec TF._EPS 1) as [_|Hn]; [|exfalso; exact (Hn _EPS_lt_1)].
  unfold TF.scale.
  replace (0 * (sin (theta / 2) / 1)) with 0 by (field).
  replace (1 * (sin (theta / 2) / 1)) with (sin (theta / 2)) by (field).
  reflexivity.
Qed.

(** C6: the orientation of the request built for a goal is the quaternion
    (0, 0, sin(theta/2), cos(theta/2)), in the order x, y, z, w; it has norm
    one and depends on theta only; theta = 0 gives (0, 0, 0, 1) and
    theta = pi gives (0, 0, 1, 0). *)
Theorem orientation_half_angle
  (self : GoalsSequencer) (x y theta : R) (env : Env R) (w : World R) :
  let q goal :=
    orientation (pose (target_pose (fst (_CreateMoveBaseGoal self goal env w))))
  in
  q (x, y, theta)
  = {| quat_x := 0; quat_y := 0;
       quat_z := sin (theta / 2); quat_w := cos (theta / 2) |} /\
  quat_x (q (x, y, theta)) * quat_x (q (x, y, theta))
  + quat_y (q (x, y, theta)) * quat_y (q (x, y, theta))
  + quat_z (q (x, y, theta)) * quat_z (q (x, y, theta))
  + quat_w (q (x, y, theta)) * quat_w (q (x, y, theta)) = 1 /\
  (forall self' x' y' env' w',
      orientation (pose (target_pose
        (fst (_CreateMoveBaseGoal self' (x', y', theta) env' w'))))
      = q (x, y, theta)) /\
  q (x, y, 0) = {| quat_x := 0; quat_y := 0; quat_z := 0; quat_w := 1 |} /\
  q (x, y, PI) = {| quat_x := 0; quat_y := 0; quat_z := 1; quat_w := 0 |}.
Proof.
  intros q.
  assert (Hq : forall self' x' y' t env' w',
             orientation (pose (target_pose
               (fst (_CreateMoveBaseGoal self' (x', y', t) env' w'))))
             = {| quat_x := 0; quat_y := 0;
                  quat_z := sin (t / 2); quat_w := cos (t / 2) |}).
  { intros self' x' y' t env' w'. rewrite _CreateMoveBaseGoal_run.
    cbn [fst NavigationRequest target_pose pose orientation
         quaternion_about_axis of_int FloatLib_R].
    rewrite quaternion_about_z. reflexivity. }
  unfold q. rewrite !Hq. cbn [quat_x quat_y quat_z quat_w].
  split; [reflexivity|]. split; [|split; [|split]].
  - pose proof (sin2_cos2 (theta / 2)) as Hsc. unfold Rsqr in Hsc. lra.
  - intros self' x' y' env' w'. apply Hq.
  - replace (0 / 2) with 0 by field. rewrite sin_0, cos_0. reflexivity.
  - rewrite sin_PI2, cos_PI2. reflexivity.
Qed.

End Orientation.

(** * Further properties of the parser *)

(** ** White space *)

Lemma lstrip_all_space (p : string) : all_space p = true -> lstrip p = "".
Proof.
  induction p as [|c r IH]; [reflexivity|]. cbn [all_space lstrip].
  intros Hp. apply andb_true_iff in Hp. destruct Hp as [Hc Hr].
  rewrite Hc. apply IH. exact Hr.
Qed.

Lemma rstrip_all_space (q : string) : all_space q = true -> rstrip q = "".
Proof.
  induction q as [|c r IH]; [reflexivity|]. cbn [all_space rstrip].
  intros Hq. apply andb_true_iff in Hq. destruct Hq as [Hc Hr].
  rewrite (IH Hr), Hc. reflexivity.
Qed.

Lemma lstrip_pad_left (p s : string) :
  all_space p = true -> lstrip (p ++ s) = lstrip s.
Proof.
  induction p as [|c r IH]; [reflexivity|]. cbn [all_space lstrip String.append].
  intros Hp. apply andb_true_iff in Hp. destruct Hp as [Hc Hr].
  rewrite Hc. apply IH. exact Hr.
Qed.

Lemma rstrip_pad_right (s q : string) :
  all_space q = true -> rstrip (s ++ q) = rstrip s.
Proof.
  intros Hq. induction s as [|c r IH]; cbn [String.append rstrip].
  - apply rstrip_all_space. exact Hq.
  - rewrite IH. reflexivity.
Qed.

Lemma strip_pad_right (s q : string) :
  all_space q = true -> strip (s ++ q) = strip s.
Proof.
  intros Hq. unfold strip. induction s as [|c r IH].
  - cbn [String.append lstrip rstrip]. rewrite (lstrip_all_space q Hq).
    reflexivity.
  - cbn [String.append lstrip]. destruct (isspace c); [exact IH|].
    apply (rstrip_pad_right (String c r) q Hq).
Qed.

(** White space before and after a text does not change what [strip]
    gives. *)
Lemma strip_pad (p s q : string) :
  all_space p = true -> all_space q = true -> strip (p ++ s ++ q) = strip s.
Proof.
  intros Hp Hq. unfold strip. rewrite (lstrip_pad_left p _ Hp).
  apply (strip_pad_right s q Hq).
Qed.

Lemma has_char_app (c : ascii) (a b : string) :
  has_char c (a ++ b) = has_char c a || has_char c b.
Proof.
  induction a as [|x r IH]; [reflexivity|].
  cbn [String.append has_char]. rewrite IH, orb_assoc. reflexivity.
Qed.

Lemma all_space_has_char (c : ascii) (p : string) :
  isspace c = false -> all_space p = true -> has_char c p = false.
Proof.
  intros Hc. induction p as [|x r IH]; [reflexivity|].
  cbn [all_space has_char]. intros Hp. apply andb_true_iff in Hp.
  destruct Hp as [Hx Hr]. rewrite (IH Hr), orb_false_r.
  destruct (Ascii.eqb_spec x c) as [->|]; [congruence|reflexivity].
Qed.

Lemma split_no_sep (sep : ascii) (a : string) :
  has_char sep a = false -> split sep a = [a].
Proof.
  induction a as [|x r IH]; [reflexivity|]. cbn [has_char split].
  intros Ha. apply orb_false_iff in Ha. destruct Ha as [Hx Hr].
  rewrite Hx, (IH Hr). reflexivity.
Qed.

Lemma split_at_sep (sep : ascii) (a b : string) :
  has_char sep a = false ->
  split sep (a ++ String sep b) = a :: split sep b.
Proof.
  induction a as [|x r IH]; cbn [has_char split String.append].
  - intros _. rewrite Ascii.eqb_refl. reflexivity.
  - intros Ha. apply orb_false_iff in Ha. destruct Ha as [Hx Hr].
    rewrite Hx, (IH Hr). reflexivity.
Qed.

(** X3: white space before and after a line (indentation, the newline at
    its end) does not change what [_ParseLine] makes of it. *)
Theorem _ParseLine_pad (p line q : string) :
  all_space p = true -> all_space q = true ->
  _ParseLine (p ++ line ++ q) = _ParseLine line.
Proof.
  intros Hp Hq. unfold _ParseLine. rewrite (strip_pad p line q Hp Hq).
  reflexivity.
Qed.

Lemma _ParseLine_pad_witness :
  _ParseLine ("    " ++ "x = 1.5, y = -2.25, theta = 0.0" ++ (" " ++ NL))
  = _ParseLine "x = 1.5, y = -2.25, theta = 0.0".
Proof.
  apply (_ParseLine_pad "    " "x = 1.5, y = -2.25, theta = 0.0" (" " ++ NL));
    reflexivity.
Defined.

(** X4: in a field [name = value], white space around the name and around
    the value does not change what [_ExtractValue] returns or raises. *)
Theorem _ExtractValue_pad (variableName p1 n p2 p3 v p4 : string) :
  all_space p1 = true -> all_space p2 = true ->
  all_space p3 = true -> all_space p4 = true ->
  has_char "=" n = false -> has_char "=" v = false ->
  _ExtractValue variableName ((p1 ++ n ++ p2) ++ "=" ++ (p3 ++ v ++ p4))
  = _ExtractValue variableName (n ++ "=" ++ v).
Proof.
  intros H1 H2 H3 H4 Hn Hv.
  assert (Hsp : isspace "=" = false) by reflexivity.
  assert (Hn' : has_char "=" (p1 ++ n ++ p2) = false).
  { rewrite !has_char_app, Hn, !(all_space_has_char "=" _ Hsp) by assumption.
    reflexivity. }
  assert (Hv' : has_char "=" (p3 ++ v ++ p4) = false).
  { rewrite !has_char_app, Hv, !(all_space_has_char "=" _ Hsp) by assumption.
    reflexivity. }
  unfold _ExtractValue.
  change ("=" ++ (p3 ++ v ++ p4))%string with (String "=" (p3 ++ v ++ p4)).
  change ("=" ++ v)%string with (String "=" v).
  rewrite (split_at_sep "=" _ _ Hn'), (split_at_sep "=" _ _ Hn).
  rewrite (split_no_sep "=" _ Hv'), (split_no_sep "=" _ Hv).
  cbn [getitem nth_error bind].
  rewrite (strip_pad p1 n p2 H1 H2), (strip_pad p3 v p4 H3 H4). reflexivity.
Qed.

Lemma _ExtractValue_pad_witness :
  _ExtractValue "theta" ((" " ++ "theta" ++ "  ") ++ "=" ++ ("" ++ "-.5" ++ " "))
  = _ExtractValue "theta" ("theta" ++ "=" ++ "-.5").
Proof.
  apply (_ExtractValue_pad "theta" " " "theta" "  " "" "-.5" " ");
    reflexivity.
Defined.

(** ** All the ways of [_ExtractValue] and of [_ParseLine] *)

(** X1: the name is checked first: a field whose name is not the expected
    one raises the NameError even without '=' or with a value that is not a
    number; a field with the expected name and no '=' raises IndexError;
    otherwise the result is that of [float] on the trimmed text between the
    first '=' and the second (or the end of the field). *)
Theorem _ExtractValue_cases (variableName linePart : string) :
  (field_name linePart <> variableName ->
   _ExtractValue variableName linePart
   = Raise (NameError ("Expected variable name " ++ variableName
                       ++ " but found " ++ field_name linePart))) /\
  (field_name linePart = variableName ->
   has_char "=" linePart = false ->
   _ExtractValue variableName linePart = Raise IndexError) /\
  (field_name linePart = variableName ->
   forall value,
     nth_error (split "=" linePart) 1 = Some value ->
     _ExtractValue variableName linePart = float (strip value)).
Proof.
  split; [apply _ExtractValue_wrong_name|]. split.
  - intros Hn Hc. unfold _ExtractValue, field_name in *.
    rewrite (split_no_sep "=" linePart Hc) in *.
    cbn [getitem nth_error bind hd] in *.
    rewrite Hn, String.eqb_refl. reflexivity.
  - intros Hn value Hv. unfold _ExtractValue, field_name in *.
    destruct (split "=" linePart) as [|n [|v more]]; try discriminate.
    cbn [getitem nth_error bind hd] in *. injection Hv as ->.
    rewrite Hn, String.eqb_refl. reflexivity.
Qed.

Lemma getitem_firstn {A : Type} (l : list A) (n i : nat) :
  i < n -> getitem (firstn n l) i = getitem l i.
Proof.
  unfold getitem. revert l i. induction n as [|n IH]; intros l i Hi; [lia|].
  destruct l as [|a l]; [reflexivity|]. destruct i as [|i]; [reflexivity|].
  cbn [firstn nth_error]. apply IH. lia.
Qed.

(** X5: [_ParseLine] looks at the first three comma-separated fields only:
    two lines that are not ignored and agree on them give the same result,
    goal or exception. *)
Theorem _ParseLine_first_three_only (line1 line2 : string) :
  ignored line1 = false -> ignored line2 = false ->
  firstn 3 (split "," (strip line1)) = firstn 3 (split "," (strip line2)) ->
  _ParseLine line1 = _ParseLine line2.
Proof.
  intros H1 H2 Heq.
  rewrite (_ParseLine_record line1 H1), (_ParseLine_record line2 H2).
  rewrite <- !(getitem_firstn (split "," (strip line1)) 3) by lia.
  rewrite <- !(getitem_firstn (split "," (strip line2)) 3) by lia.
  rewrite Heq. reflexivity.
Qed.

Lemma _ParseLine_first_three_only_witness :
  _ParseLine "x = 1, y = 2, theta = 3, speed = fast, , =" =
  _ParseLine "x = 1, y = 2, theta = 3".
Proof.
  apply (_ParseLine_first_three_only
           "x = 1, y = 2, theta = 3, speed = fast, , ="
           "x = 1, y = 2, theta = 3");
    reflexivity.
Defined.

Ltac earlier_fields :=
  let j := fresh "j" in
  let fj := fresh "fj" in
  let Hj := fresh "Hj" in
  let Hn := fresh "Hn" in
  intros j fj Hj Hn;
  destruct j as [|[|[|j]]]; try lia;
  cbn [nth_error] in Hn; try discriminate;
  injection Hn as <-; cbn [expected_name];
  match goal with
  | H : _ExtractValue _ _ = Ok _ |- _ => rewrite H; reflexivity
  end.

(** X2: a line raises exactly when it is not ignored and one of its first
    three fields is missing or not accepted, the fields before it being
    accepted; the exception is IndexError for a missing field and otherwise
    what [_ExtractValue] raises on that field. *)
Theorem _ParseLine_raises_iff (line : string) (e : exn) :
  _ParseLine line = Raise e <->
  ignored line = false /\
  exists i,
    i < 3 /\
    (forall j fj, j < i -> nth_error (split "," (strip line)) j = Some fj ->
                  is_ok (_ExtractValue (expected_name j) fj) = true) /\
    ((nth_error (split "," (strip line)) i = None /\ e = IndexError) \/
     (exists field,
         nth_error (split "," (strip line)) i = Some field /\
         _ExtractValue (expected_name i) field = Raise e)).
Proof.
  split.
  - intros Hp. destruct (ignored line) eqn:Hi.
    { rewrite (_ParseLine_ignored line Hi) in Hp. discriminate. }
    split; [reflexivity|]. rewrite (_ParseLine_record line Hi) in Hp.
    destruct (split "," (strip line)) as [|f0 fields];
      cbn [getitem nth_error bind] in Hp.
    { injection Hp as <-. exists 0. split; [lia|]. split; [intros; lia|].
      left. split; reflexivity. }
    destruct (_ExtractValue "x" f0) as [x|e0] eqn:Hx; cbn [bind] in Hp.
    2:{ injection Hp as <-. exists 0. split; [lia|]. split; [intros; lia|].
        right. exists f0. split; [reflexivity|exact Hx]. }
    destruct fields as [|f1 fields]; cbn [getitem nth_error bind] in Hp.
    { injection Hp as <-. exists 1. split; [lia|]. split; [earlier_fields|].
      left. split; reflexivity. }
    destruct (_ExtractValue "y" f1) as [y|e1] eqn:Hy; cbn [bind] in Hp.
    2:{ injection Hp as <-. exists 1. split; [lia|]. split; [earlier_fields|].
        right. exists f1. split; [reflexivity|exact Hy]. }
    destruct fields as [|f2 fields]; cbn [getitem nth_error bind] in Hp.
    { injection Hp as <-. exists 2. split; [lia|]. split; [earlier_fields|].
      left. split; reflexivity. }
    destruct (_ExtractValue "theta" f2) as [t|e2] eqn:Ht; cbn [bind] in Hp;
      [discriminate|].
    injection Hp as <-. exists 2. split; [lia|]. split; [earlier_fields|].
    right. exists f2. split; [reflexivity|exact Ht].
  - intros [Hi (i & Hlt & Hearly & Hbad)].
    destruct Hbad as [[Hnone ->] | (field & Hsome & Hraise)].
    + rewrite (_ParseLine_record line Hi).
      destruct (split "," (strip line)) as [|f0 fields];
        cbn [getitem nth_error bind]; [reflexivity|].
      destruct i as [|i]; [discriminate|].
      assert (H0 := Hearly 0 f0 ltac:(lia) eq_refl).
      cbn [expected_name] in H0.
      destruct (_ExtractValue "x" f0); [|discriminate]. cbn [bind].
      destruct fields as [|f1 fields]; cbn [getitem nth_error bind];
        [reflexivity|].
      destruct i as [|i]; [discriminate|].
      assert (H1 := Hearly 1 f1 ltac:(lia) eq_refl).
      cbn [expected_name] in H1.
      destruct (_ExtractValue "y" f1); [|discriminate]. cbn [bind].
      destruct fields as [|f2 fields]; cbn [getitem nth_error bind];
        [reflexivity|].
      destruct i as [|i]; [discriminate|lia].
    + eapply _ParseLine_first_bad_field; eassumption.
Qed.

(** ** The whole file *)

Lemma Parse_loop_Ok_iff (lines : list string) :
  forall goals,
    Parse_loop lines [] = Ok goals <->
    Forall2 (fun line g => _ParseLine line = Ok (Some g))
            (filter (fun line => negb (ignored line)) lines) goals.
Proof.
  induction lines as [|line rest IH]; intros goals; cbn [Parse_loop filter].
  - split.
    + intros Hp. injection Hp as <-. constructor.
    + intros Hall. inversion Hall. reflexivity.
  - destruct (ignored line) eqn:Hi; cbn [negb].
    + rewrite (_ParseLine_ignored line Hi). cbn [bind]. apply IH.
    + pose proof (_ParseLine_record_not_None line Hi) as Hnn.
      destruct (_ParseLine line) as [[g|]|e] eqn:Hl; cbn [bind];
        [|contradiction|].
      * rewrite Parse_loop_acc. split.
        -- destruct (Parse_loop rest []) as [gs|] eqn:Hgs; cbn [bind];
             [|discriminate].
           intros Hp. injection Hp as <-. constructor; [exact Hl|].
           apply IH. reflexivity.
        -- intros Hall. inversion Hall as [|? g' ? gs Hg Hrest]; subst.
           rewrite Hl in Hg. injection Hg as <-. apply IH in Hrest.
           rewrite Hrest. reflexivity.
      * split; [discriminate|].
        intros Hall. inversion Hall as [|? g' ? gs Hg Hrest]; subst.
        rewrite Hl in Hg. discriminate.
Qed.

(** X6: [Parse] returns a list exactly when the file can be opened and
    every line that is not ignored is accepted as a record, and the list is
    then made of the goals of these lines, in the order of the lines. *)
Theorem Parse_Ok_iff (self : GoalsFileParser) (fs : filesystem)
  (filePath : string) (goals : list (goal pyfloat)) :
  snd (Parse self fs filePath) = Ok goals <->
  exists content,
    fs filePath = Some content /\
    Forall2 (fun line g => _ParseLine line = Ok (Some g))
            (record_lines content) goals.
Proof.
  unfold Parse, record_lines. destruct (fs filePath) as [content|]; cbn [snd].
  - rewrite Parse_loop_Ok_iff. split.
    + intros Hall. exists content. split; [reflexivity|exact Hall].
    + intros (c & Hc & Hall). injection Hc as <-. exact Hall.
  - split; [discriminate|]. intros (c & Hc & _). discriminate.
Qed.

(** X7: [Parse] raises what the first line that raises does; the lines
    after it are not read, whatever they hold. *)
Theorem Parse_first_error (self : GoalsFileParser) (fs : filesystem)
  (filePath content : string) (pre : list string) (line : string)
  (post : list string) (e : exn) :
  fs filePath = Some content ->
  readlines content = pre ++ line :: post ->
  Forall (fun l => is_ok (_ParseLine l) = true) pre ->
  _ParseLine line = Raise e ->
  snd (Parse self fs filePath) = Raise e.
Proof.
  intros Hfs Hlines Hpre Hbad.
  unfold Parse. rewrite Hfs. cbn [snd]. rewrite Hlines.
  apply Parse_loop_first_error; assumption.
Qed.

Lemma Parse_first_error_witness :
  snd (Parse {| _GoalsFilePath := None |} (fun _ => Some bad_txt) "bad.txt")
  = Raise (NameError "Expected variable name y but found z").
Proof.
  refine (Parse_first_error
            {| _GoalsFilePath := None |} (fun _ => Some bad_txt)
            "bad.txt" bad_txt
            [("x = 1, y = 2, theta = 3" ++ NL)%string;
             ("// second leg" ++ NL)%string]
            ("x = 4, z = 5, theta = 6" ++ NL)%string
            [("x = seven, y = 8, theta = 9" ++ NL)%string]
            (NameError "Expected variable name y but found z")
            _ _ _ _).
  - reflexivity.
  - reflexivity.
  - repeat constructor.
  - reflexivity.
Defined.

Lemma _ExtractValue_no_IOError (name field : string) (e : exn) :
  _ExtractValue name field = Raise e -> forall p, e <> IOError p.
Proof.
  unfold _ExtractValue.
  destruct (split "=" field) as [|n l]; cbn [getitem nth_error bind].
  - intros He p. injection He as <-. discriminate.
  - destruct (negb (strip n =? name)).
    + intros He p. injection He as <-. discriminate.
    + destruct l as [|v more]; cbn [getitem nth_error bind].
      * intros He p. injection He as <-. discriminate.
      * intros He p. rewrite (float_raises _ _ He). discriminate.
Qed.

Lemma _ParseLine_no_IOError (line : string) (e : exn) :
  _ParseLine line = Raise e -> forall p, e <> IOError p.
Proof.
  intros Hp. destruct (ignored line) eqn:Hi.
  { rewrite (_ParseLine_ignored line Hi) in Hp. discriminate. }
  rewrite (_ParseLine_record line Hi) in Hp.
  destruct (split "," (strip line)) as [|f0 fields];
    cbn [getitem nth_error bind] in Hp.
  { injection Hp as <-. discriminate. }
  destruct (_ExtractValue "x" f0) as [x|e0] eqn:Hx; cbn [bind] in Hp.
  2:{ injection Hp as <-. exact (_ExtractValue_no_IOError _ _ _ Hx). }
  destruct fields as [|f1 fields]; cbn [getitem nth_error bind] in Hp.
  { injection Hp as <-. discriminate. }
  destruct (_ExtractValue "y" f1) as [y|e1] eqn:Hy; cbn [bind] in Hp.
  2:{ injection Hp as <-. exact (_ExtractValue_no_IOError _ _ _ Hy). }
  destruct fields as [|f2 fields]; cbn [getitem nth_error bind] in Hp.
  { injection Hp as <-. discriminate. }
  destruct (_ExtractValue "theta" f2) as [t|e2] eqn:Ht; cbn [bind] in Hp;
    [discriminate|].
  injection Hp as <-. exact (_ExtractValue_no_IOError _ _ _ Ht).
Qed.

Lemma Parse_loop_no_IOError (lines : list string) :
  forall goals e, Parse_loop lines goals = Raise e -> forall p, e <> IOError p.
Proof.
  induction lines as [|line rest IH]; intros goals e Hp; cbn [Parse_loop] in Hp.
  - discriminate.
  - destruct (_ParseLine line) as [[g|]|e'] eqn:Hl; cbn [bind] in Hp.
    + eapply IH. exact Hp.
    + eapply IH. exact Hp.
    + injection Hp as <-. exact (_ParseLine_no_IOError _ _ Hl).
Qed.

(** X8: [Parse] raises IOError exactly when the file cannot be opened, and
    the error then carries the path; no line of a file that can be opened
    makes it raise IOError. *)
Theorem Parse_IOError_iff (self : GoalsFileParser) (fs : filesystem)
  (filePath p : string) :
  snd (Parse self fs filePath) = Raise (IOError p) <->
  fs filePath = None /\ p = filePath.
Proof.
  unfold Parse. destruct (fs filePath) as [content|]; cbn [snd].
  - split.
    + intros Hp. exfalso.
      exact (Parse_loop_no_IOError _ _ _ Hp p eq_refl).
    + intros [Hn _]. discriminate.
  - split.
    + intros Hp. injection Hp as <-. split; reflexivity.
    + intros [_ ->]. reflexivity.
Qed.

Lemma readlines_not_nil (c : ascii) (r : string) : readlines (String c r) <> [].
Proof.
  cbn [readlines]. destruct (Ascii.eqb c "010"); [discriminate|].
  destruct (readlines r); discriminate.
Qed.

(** The lines of two texts put end to end, when the first ends its last
    line. *)
Lemma readlines_app (c1 c2 : string) :
  readlines ((c1 ++ NL) ++ c2) = readlines (c1 ++ NL) ++ readlines c2.
Proof.
  induction c1 as [|a r IH].
  - reflexivity.
  - cbn [String.append readlines]. destruct (Ascii.eqb a "010").
    + rewrite IH. reflexivity.
    + rewrite IH. destruct (readlines (r ++ NL)) as [|h t] eqn:Hr.
      * exfalso. destruct r; exact (readlines_not_nil _ _ Hr).
      * reflexivity.
Qed.

Lemma Parse_loop_app (lines1 lines2 : list string) :
  forall goals,
    Parse_loop (lines1 ++ lines2) goals
    = (gs <- Parse_loop lines1 goals ;; Parse_loop lines2 gs).
Proof.
  induction lines1 as [|line rest IH]; intros goals; cbn [app Parse_loop bind].
  - reflexivity.
  - destruct (_ParseLine line) as [[g|]|e]; cbn [bind];
      [apply IH|apply IH|reflexivity].
Qed.

(** X9: parsing two files put end to end, the first ending with a newline,
    gives the goals of the first followed by the goals of the second; if
    one of them raises, so does the whole, the first taking precedence. *)
Theorem Parse_concat (self : GoalsFileParser) (fs : filesystem)
  (path1 path2 path c1 c2 : string) :
  fs path1 = Some (c1 ++ NL)%string ->
  fs path2 = Some c2 ->
  fs path = Some ((c1 ++ NL) ++ c2)%string ->
  snd (Parse self fs path)
  = (g1 <- snd (Parse self fs path1) ;;
     g2 <- snd (Parse self fs path2) ;;
     Ok (g1 ++ g2)).
Proof.
  intros H1 H2 H12. unfold Parse. rewrite H1, H2, H12. cbn [snd].
  rewrite readlines_app, Parse_loop_app.
  destruct (Parse_loop (readlines (c1 ++ NL)) []) as [g1|e]; cbn [bind];
    [|reflexivity].
  apply Parse_loop_acc.
Qed.

Lemma Parse_concat_witness :
  snd (Parse {| _GoalsFilePath := None |} two_files_fs "ab.txt")
  = (g1 <- snd (Parse {| _GoalsFilePath := None |} two_files_fs "a.txt") ;;
     g2 <- snd (Parse {| _GoalsFilePath := None |} two_files_fs "b.txt") ;;
     Ok (g1 ++ g2)).
Proof.
  apply (Parse_concat {| _GoalsFilePath := None |} two_files_fs
           "a.txt" "b.txt" "ab.txt" goals_txt more_txt);
    reflexivity.
Defined.

(** * Further properties of the sequencer *)

Section SequencerComposition.

Context {F : Type} `{FloatLib F}.

Lemma requests_ext (frame : string) (env1 env2 : Env F)
  (goals : list (goal F)) :
  (forall k, clock env1 k = clock env2 k) ->
  forall k, requests frame env1 k goals = requests frame env2 k goals.
Proof.
  intros Hclock. induction goals as [|g rest IH]; intros k; cbn [requests].
  - reflexivity.
  - rewrite Hclock, IH. reflexivity.
Qed.

Lemma requests_fields (frame : string) (env : Env F) (goals : list (goal F)) :
  forall k,
    Forall2
      (fun g m =>
         frame_id (header (target_pose m)) = frame /\
         point_x (position (pose (target_pose m))) = fst (fst g) /\
         point_y (position (pose (target_pose m))) = snd (fst g) /\
         point_z (position (pose (target_pose m))) = of_int 0 /\
         orientation (pose (target_pose m))
         = array_to_quaternion
             (quaternion_about_axis (snd g) (of_int 0, of_int 0, of_int 1)))
      goals (requests frame env k goals).
Proof.
  induction goals as [|[[x y] theta] rest IH]; intros k; cbn [requests];
    constructor; [|apply IH].
  cbn. repeat split.
Qed.

Lemma requests_stamps (frame : string) (env : Env F) (goals : list (goal F)) :
  forall k,
    map (fun m => stamp (header (target_pose m))) (requests frame env k goals)
    = map (clock env) (List.seq k (length goals)).
Proof.
  induction goals as [|[[x y] theta] rest IH]; intros k;
    cbn [requests map length List.seq]; [reflexivity|].
  rewrite IH. reflexivity.
Qed.

(** X10: running a sequence made of two is running the first and then the
    second from the world the first left. *)
Theorem NavigateToGoals_app (self : GoalsSequencer)
  (goals1 goals2 : list (goal F)) (env : Env F) :
  forall w,
    NavigateToGoals self (goals1 ++ goals2) env w
    = NavigateToGoals self goals2 env
        (snd (NavigateToGoals self goals1 env w)).
Proof.
  induction goals1 as [|g rest IH]; intros w; cbn [app NavigateToGoals].
  - reflexivity.
  - unfold iobind.
    destruct (print (PNavigating g) env w) as [u1 w1].
    destruct (_NavigateToGoal self g env w1) as [u2 w2].
    apply IH.
Qed.

(** X12: every request sent carries the frame of the sequencer, the x and
    y of its goal with z zero, and the quaternion that tf gives for the
    theta of the goal about (0, 0, 1); the time stamps are successive
    readings of the clock, one per goal. *)
Theorem requests_carry_goal_and_frame (self : GoalsSequencer)
  (goals : list (goal F)) (env : Env F) (w : World F) :
  exists reqs,
    sent (snd (NavigateToGoals self goals env w)) = sent w ++ reqs /\
    now_calls (snd (NavigateToGoals self goals env w))
    = now_calls w + length goals /\
    map (fun m => stamp (header (target_pose m))) reqs
    = map (clock env) (List.seq (now_calls w) (length goals)) /\
    Forall2
      (fun g m =>
         frame_id (header (target_pose m)) = _GoalFrameId self /\
         point_x (position (pose (target_pose m))) = fst (fst g) /\
         point_y (position (pose (target_pose m))) = snd (fst g) /\
         point_z (position (pose (target_pose m))) = of_int 0 /\
         orientation (pose (target_pose m))
         = array_to_quaternion
             (quaternion_about_axis (snd g) (of_int 0, of_int 0, of_int 1)))
      goals reqs.
Proof.
  exists (requests (_GoalFrameId self) env (now_calls w) goals).
  rewrite NavigateToGoals_run. cbn [snd sent now_calls].
  split; [reflexivity|]. split; [reflexivity|].
  split; [apply requests_stamps|apply requests_fields].
Qed.

(** X11: what is sent does not depend on how the service answers: with the
    same clock, two services get the same requests in the same order, and
    the clock is read as many times. *)
Theorem submissions_independent_of_outcomes (self : GoalsSequencer)
  (goals : list (goal F)) (env1 env2 : Env F) (w : World F) :
  (forall k, clock env1 k = clock env2 k) ->
  sent (snd (NavigateToGoals self goals env1 w))
  = sent (snd (NavigateToGoals self goals env2 w)) /\
  submissions (trace (snd (NavigateToGoals self goals env1 w)))
  = submissions (trace (snd (NavigateToGoals self goals env2 w))) /\
  now_calls (snd (NavigateToGoals self goals env1 w))
  = now_calls (snd (NavigateToGoals self goals env2 w)).
Proof.
  intros Hclock. rewrite !NavigateToGoals_run. cbn [snd sent trace now_calls].
  rewrite (requests_ext _ env1 env2 goals Hclock).
  split; [reflexivity|]. split; [|reflexivity].
  unfold submissions. rewrite !flat_map_app. f_equal.
  fold (submissions
          (flat_map (fun '(g, r, st) => goal_events g r st)
             (combine
                (combine goals
                   (requests (_GoalFrameId self) env2 (now_calls w) goals))
                (outcomes env1 (sent w)
                   (requests (_GoalFrameId self) env2 (now_calls w) goals))))).
  fold (submissions
          (flat_map (fun '(g, r, st) => goal_events g r st)
             (combine
                (combine goals
                   (requests (_GoalFrameId self) env2 (now_calls w) goals))
                (outcomes env2 (sent w)
                   (requests (_GoalFrameId self) env2 (now_calls w) goals))))).
  rewrite !submissions_goal_events;
    rewrite ?outcomes_length, ?requests_length; reflexivity.
Qed.

End SequencerComposition.

Lemma submissions_independent_of_outcomes_witness :
  sent (snd (NavigateToGoals map_frame three_goals sample_env new_world))
  = sent (snd (NavigateToGoals map_frame three_goals rejecting_env new_world)) /\
  submissions
    (trace (snd (NavigateToGoals map_frame three_goals sample_env new_world)))
  = submissions
      (trace (snd (NavigateToGoals map_frame three_goals rejecting_env
                     new_world))) /\
  now_calls (snd (NavigateToGoals map_frame three_goals sample_env new_world))
  = now_calls (snd (NavigateToGoals map_frame three_goals rejecting_env
                      new_world)).
Proof.
  apply (submissions_independent_of_outcomes
           map_frame three_goals sample_env rejecting_env new_world).
  intros k. reflexivity.
Defined.

(** ** The script *)

(** X13: the script reads the path given as first argument, or
    ./nodes/goals.txt when there is none, further arguments being ignored.
    If the parse raises, the script ends on that exception and nothing has
    happened: nothing printed, no node started, no goal sent.  Otherwise it
    prints the goals, starts the node, waits for the server, runs the
    sequence in the frame /map and ends normally, whatever the outcomes of
    the goals. *)
Theorem main_outcome (L : FloatLib pyfloat) (argv : list string)
  (fs : filesystem) (env : Env pyfloat) (w : World pyfloat) :
  goalsFilePath argv
  = match argv with
    | _ :: path :: _ => path
    | _ => "./nodes/goals.txt"
    end /\
  match snd (Parse {| _GoalsFilePath := None |} fs (goalsFilePath argv)) with
  | Raise e => main argv fs env w = (Raise e, w)
  | Ok goals =>
      main argv fs env w
      = (Ok tt,
         snd (NavigateToGoals {| _GoalFrameId := "/map" |} goals env
                {| now_calls := now_calls w; sent := sent w;
                   trace := trace w
                            ++ [Print (PGoals goals);
                                InitNode "goalsSequencer";
                                NewClient "move_base"; WaitForServer] |})) /\
      length (sent (snd (main argv fs env w)))
      = length (sent w) + length goals
  end.
Proof.
  split.
  - destruct argv as [|a [|b c]]; reflexivity.
  - unfold main.
    destruct (snd (Parse {| _GoalsFilePath := None |} fs (goalsFilePath argv)))
      as [goals|e]; [|reflexivity].
    unfold __init__, iobind, print, emit, ret. cbn [now_calls sent trace].
    rewrite <- !app_assoc. cbn [app].
    rewrite NavigateToGoals_run. cbn [snd sent now_calls].
    split; [reflexivity|].
    rewrite length_app, requests_length. reflexivity.
Qed.
